(** * Statistics ledgers of the simulation templates (simpy/Stats.py)

    A shallow embedding of the three classes of [Stats.py]:
    [ResourceStatsMixin] (the queue-length log of a resource and its
    reconstruction on integer ticks), [Entity] (the per-resource visit
    records and the derived durations) and [Source] (the aggregation over
    disposed entities).

    Conventions of the embedding.
    - Python numbers used as simulation times ([env.now], the stamps) are
      exact rationals [Q]; an [int] [n] is [inject_Z n].  Two numbers are the
      same dictionary key when they are numerically equal ([5 == 5.0] and
      both hash alike), which is [Qeq_bool].
    - [len(self.queue)] is a [nat].
    - [self.env.now] is an explicit argument [now] of every method that
      reads the clock.
    - A raised exception is the [Err] branch of [result].
    - [print] calls write nothing to the state; [Entity] models the
      methods of an entity whose [name] (assigned by [Source.next_entity],
      defined by the subclass, or assigned by the model) is there for them
      to read, and [NamedEntity] puts the read of [self.name], which raises
      [AttributeError] when the attribute is missing, in front of them.
    - The calls an entity forwards to a resource ([resource.request],
      [resource.add_queue_check], [resource.release]) act on the resource's
      own state, which [ResourceStatsMixin] models; the entity methods below
      are the entity's side of those calls. *)

From Stdlib Require Import List ZArith QArith Qround String Bool Arith Lia.
From Stdlib Require Import Permutation.
Import ListNotations.

Local Open Scope Q_scope.

(** ** ResourceStatsMixin *)

Module ResourceStatsMixin.

(** The third component of a logged tuple: ['request'] or ['start']. *)
Inductive status : Type := request_status | start_status.

(** One entry of [self.queue_size]: [(time, size, status)]. *)
Definition event : Type := (Q * nat * status)%type.

Definition ev_time (e : event) : Q := fst (fst e).
Definition ev_size (e : event) : nat := snd (fst e).
Definition ev_status (e : event) : status := snd e.

Record t : Type := mk {
  name : string;
  queue_size : list event
}.

(** [__init__]: the log starts empty. *)
Definition init (cls_name : string) : t :=
  {| name := cls_name; queue_size := [] |}.

(** [request]: after the underlying request, log the queue length. *)
Definition request (now : Q) (len_queue : nat) (self : t) : t :=
  {| name := name self;
     queue_size := queue_size self ++ [(now, len_queue, request_status)] |}.

(** [add_queue_check]: log the queue length when service starts. *)
Definition add_queue_check (now : Q) (len_queue : nat) (self : t) : t :=
  {| name := name self;
     queue_size := queue_size self ++ [(now, len_queue, start_status)] |}.

(** The local dictionary [d] of [queue_size_over_time]: keys in insertion
    order, each with the list of [(size, status)] logged at that time. *)
Definition dict : Type := list (Q * list (nat * status)).

(** [time in d] / [d[time]]. *)
Fixpoint d_get (d : dict) (time : Q) : option (list (nat * status)) :=
  match d with
  | [] => None
  | (k, l) :: d' => if Qeq_bool k time then Some l else d_get d' time
  end.

(** One iteration of the grouping loop:
    [if time in d: d[time].append((size, status)) else: d[time] = [(size, status)]]. *)
Fixpoint d_add (d : dict) (time : Q) (x : nat * status) : dict :=
  match d with
  | [] => [(time, [x])]
  | (k, l) :: d' =>
      if Qeq_bool k time then (k, l ++ [x]) :: d'
      else (k, l) :: d_add d' time x
  end.

Definition group_step (d : dict) (e : event) : dict :=
  d_add d (ev_time e) (ev_size e, ev_status e).

Definition group_by_time (qs : list event) : dict :=
  fold_left group_step qs [].

(** The inner loop over [d[i]], starting from
    [biggest_size_of_activity = 0]. *)
Definition biggest_size_of_activity (l : list (nat * status)) : nat :=
  fold_left (fun biggest x => if biggest <? fst x then fst x else biggest)%nat l 0%nat.

(** [int(x)] on a number: truncation towards zero. *)
Definition py_int (x : Q) : Z := Z.quot (Qnum x) (Zpos (Qden x)).

(** [range(n)]: empty when [n <= 0]. *)
Definition py_range (n : Z) : list nat := seq 0 (Z.to_nat n).

(** The key an integer tick [i] is looked up under. *)
Definition tick_key (i : nat) : Q := inject_Z (Z.of_nat i).

(** Body of [for i in range(int(self.env.now))]; the state is
    [(current_queue_size, queue_over_time)]. *)
Definition tick (d : dict) (st : nat * list nat) (i : nat) : nat * list nat :=
  let current_queue_size :=
    match d_get d (tick_key i) with
    | Some l => biggest_size_of_activity l
    | None => fst st
    end in
  (current_queue_size, snd st ++ [current_queue_size]).

Definition queue_size_over_time (now : Q) (self : t) : list nat :=
  let d := group_by_time (queue_size self) in
  snd (fold_left (tick d) (py_range (py_int now)) (0%nat, [])).

(** Specification-side vocabulary: the log entries stamped with a time
    numerically equal to [time], and their sizes. *)
Definition events_at (time : Q) (qs : list event) : list event :=
  filter (fun e => Qeq_bool (ev_time e) time) qs.

Definition sizes_at (time : Q) (qs : list event) : list nat :=
  map ev_size (events_at time qs).

Definition pairs_at (time : Q) (qs : list event) : list (nat * status) :=
  map (fun e => (ev_size e, ev_status e)) (events_at time qs).

(** The step function the series samples: at a tick with logged events
    the largest logged size, otherwise the value of the tick before, and
    [0] before the first tick. *)
Fixpoint value_at (qs : list event) (i : nat) : nat :=
  match i with
  | O =>
      match sizes_at (tick_key O) qs with
      | [] => 0%nat
      | l => list_max l
      end
  | S j =>
      match sizes_at (tick_key (S j)) qs with
      | [] => value_at qs j
      | l => list_max l
      end
  end.

End ResourceStatsMixin.

Module RS := ResourceStatsMixin.

(** ** Exceptions *)

Inductive error : Type :=
| Exception (msg : string)
| KeyError (key : string)
| TypeError
| AttributeError (attr : string).

Inductive result (A : Type) : Type :=
| Ok (a : A)
| Err (e : error).

Arguments Ok {A} a.
Arguments Err {A} e.

Definition bind {A B : Type} (r : result A) (k : A -> result B) : result B :=
  match r with
  | Ok a => k a
  | Err e => Err e
  end.

Notation "x <- c ;; k" := (bind c (fun x => k))
  (at level 61, c at next level, right associativity).

(** ** Entity *)

Module Entity.

(** The per-resource tracking dictionary, with its three fixed keys. *)
Record visit : Type := mk_visit {
  arrival_time : Q;
  start_service_time : Q;
  finish_service_time : Q
}.

Definition _empty_resource_tracking_dict : visit := mk_visit 0 0 0.

(** [OrderedDict] from resource name to tracking dictionary: an
    association list in insertion order. *)
Definition odict : Type := list (string * visit).

Fixpoint od_get (d : odict) (k : string) : option visit :=
  match d with
  | [] => None
  | (k', v) :: d' => if String.eqb k' k then Some v else od_get d' k
  end.

(** [d[k] = v]: an existing key keeps its position, a new key goes last. *)
Fixpoint od_set (d : odict) (k : string) (v : visit) : odict :=
  match d with
  | [] => [(k, v)]
  | (k', v') :: d' =>
      if String.eqb k' k then (k', v) :: d' else (k', v') :: od_set d' k v
  end.

(** [d[k]] as an expression: [KeyError] on a missing key. *)
Definition od_getitem (d : odict) (k : string) : result visit :=
  match od_get d k with
  | Some v => Ok v
  | None => Err (KeyError k)
  end.

(** The fields of an entity the statistics read or write.  [total_time],
    [waiting_time] and [processing_time] do not exist before the first
    [_calculate_statistics] ([None]).  [attributes] (only forwarded to the
    resource as the request priority) and [name] (only printed) are not
    part of the state modelled here. *)
Record t : Type := mk {
  creation_time : option Q;
  resources_requested : odict;
  disposal_time : option Q;
  total_time : option Q;
  waiting_time : option Q;
  processing_time : option Q
}.

(** [__init__]. *)
Definition init : t :=
  {| creation_time := None; resources_requested := []; disposal_time := None;
     total_time := None; waiting_time := None; processing_time := None |}.

Definition set_creation_time (c : Q) (self : t) : t :=
  {| creation_time := Some c;
     resources_requested := resources_requested self;
     disposal_time := disposal_time self;
     total_time := total_time self;
     waiting_time := waiting_time self;
     processing_time := processing_time self |}.

Definition set_resources_requested (d : odict) (self : t) : t :=
  {| creation_time := creation_time self;
     resources_requested := d;
     disposal_time := disposal_time self;
     total_time := total_time self;
     waiting_time := waiting_time self;
     processing_time := processing_time self |}.

Definition is_disposed (self : t) : bool :=
  match disposal_time self with
  | Some _ => true
  | None => false
  end.

Definition _add_resource_to_visited (resource_name : string) (self : t) : t :=
  set_resources_requested
    (od_set (resources_requested self) resource_name _empty_resource_tracking_dict)
    self.

(** [self.resources_requested[name][field] = value]: the outer lookup
    raises [KeyError] when the resource was never requested; otherwise the
    tracking dictionary found there is updated in place. *)
Definition update_visit (f : visit -> visit) (resource_name : string) (self : t)
  : result t :=
  v <- od_getitem (resources_requested self) resource_name ;;
  Ok (set_resources_requested
        (od_set (resources_requested self) resource_name (f v)) self).

Definition set_arrival (now : Q) (v : visit) : visit :=
  mk_visit now (start_service_time v) (finish_service_time v).
Definition set_start_service (now : Q) (v : visit) : visit :=
  mk_visit (arrival_time v) now (finish_service_time v).
Definition set_finish_service (now : Q) (v : visit) : visit :=
  mk_visit (arrival_time v) (start_service_time v) now.

Definition request_resource (now : Q) (resource_name : string) (self : t)
  : result t :=
  update_visit (set_arrival now) resource_name
    (_add_resource_to_visited resource_name self).

Definition start_service_at_resource (now : Q) (resource_name : string) (self : t)
  : result t :=
  update_visit (set_start_service now) resource_name self.

Definition release_resource (now : Q) (resource_name : string) (self : t)
  : result t :=
  update_visit (set_finish_service now) resource_name self.

(** [dispose]: returns the stamp and the updated entity. *)
Definition dispose (now : Q) (self : t) : Q * t :=
  (now,
   {| creation_time := creation_time self;
      resources_requested := resources_requested self;
      disposal_time := Some now;
      total_time := total_time self;
      waiting_time := waiting_time self;
      processing_time := processing_time self |}).

Definition _calculate_waiting_time_for_resource (resource_name : string) (self : t)
  : result Q :=
  resource_stats <- od_getitem (resources_requested self) resource_name ;;
  Ok (start_service_time resource_stats - arrival_time resource_stats).

Definition _calculate_processing_time_for_resource (resource_name : string) (self : t)
  : result Q :=
  resource_stats <- od_getitem (resources_requested self) resource_name ;;
  Ok (finish_service_time resource_stats - start_service_time resource_stats).

Definition get_waiting_time_for_resource (resource_name : string) (self : t)
  : result Q :=
  _calculate_waiting_time_for_resource resource_name self.

Definition get_processing_time_for_resource (resource_name : string) (self : t)
  : result Q :=
  _calculate_processing_time_for_resource resource_name self.

(** The loop of [_calculate_statistics] over
    [self.resources_requested.items()]; the accumulator is
    [(waiting_time, processing_time)], and each iteration looks the
    resource up again by its name. *)
Fixpoint stats_loop (self : t) (items : odict) (acc : Q * Q) : result (Q * Q) :=
  match items with
  | [] => Ok acc
  | (resource_name, _) :: items' =>
      w <- _calculate_waiting_time_for_resource resource_name self ;;
      p <- _calculate_processing_time_for_resource resource_name self ;;
      stats_loop self items' (fst acc + w, snd acc + p)
  end.

(** [a - b] on two attributes that may hold [None]. *)
Definition py_sub (a b : option Q) : result Q :=
  match a, b with
  | Some x, Some y => Ok (x - y)
  | _, _ => Err TypeError
  end.

Definition not_yet_disposed_msg : string :=
  "Entity is not yet disposed. Dispose of this entity before calculating stats".

Definition _calculate_statistics (self : t) : result t :=
  if negb (is_disposed self) then Err (Exception not_yet_disposed_msg)
  else
    wp <- stats_loop self (resources_requested self) (0, 0) ;;
    total <- py_sub (disposal_time self) (creation_time self) ;;
    Ok {| creation_time := creation_time self;
          resources_requested := resources_requested self;
          disposal_time := disposal_time self;
          total_time := Some total;
          waiting_time := Some (fst wp);
          processing_time := Some (snd wp) |}.

(** [return self.<attr>]: [AttributeError] when the attribute was never
    assigned. *)
Definition read_attr (attr : string) (v : option Q) (self : t) : result (Q * t) :=
  match v with
  | Some x => Ok (x, self)
  | None => Err (AttributeError attr)
  end.

Definition total_time_msg : string :=
  "Can't get total time: Entity has not been disposed".
Definition waiting_time_msg : string :=
  "Can't get total waiting time: Entity has not been disposed".
Definition processing_time_msg : string :=
  "Can't get total processing time: Entity has not been disposed".

(** The three getters return the value together with the entity, whose
    statistics attributes [_calculate_statistics] has just written. *)
Definition get_total_time (self : t) : result (Q * t) :=
  if is_disposed self then
    self' <- _calculate_statistics self ;;
    read_attr "total_time" (total_time self') self'
  else Err (Exception total_time_msg).

Definition get_total_waiting_time (self : t) : result (Q * t) :=
  if is_disposed self then
    self' <- _calculate_statistics self ;;
    read_attr "waiting_time" (waiting_time self') self'
  else Err (Exception waiting_time_msg).

Definition get_total_processing_time (self : t) : result (Q * t) :=
  if is_disposed self then
    self' <- _calculate_statistics self ;;
    read_attr "processing_time" (processing_time self') self'
  else Err (Exception processing_time_msg).

(** Calls a model makes on one entity, and their execution in sequence;
    the first exception ends the run. *)
Inductive call : Type :=
| Request (resource_name : string) (now : Q)
| StartService (resource_name : string) (now : Q)
| Release (resource_name : string) (now : Q)
| Dispose (now : Q).

Definition run_call (c : call) (self : t) : result t :=
  match c with
  | Request r now => request_resource now r self
  | StartService r now => start_service_at_resource now r self
  | Release r now => release_resource now r self
  | Dispose now => Ok (snd (dispose now self))
  end.

Fixpoint run (cs : list call) (self : t) : result t :=
  match cs with
  | [] => Ok self
  | c :: cs' => self' <- run_call c self ;; run cs' self'
  end.

(** Representation invariant of the association list: the keys of a
    dictionary are pairwise distinct. *)
Definition wf (self : t) : Prop := NoDup (map fst (resources_requested self)).

(** Specification-side sums over the visit records, in visitation order. *)
Definition waiting_of (v : visit) : Q := start_service_time v - arrival_time v.
Definition processing_of (v : visit) : Q := finish_service_time v - start_service_time v.

Fixpoint sum_over (f : visit -> Q) (d : odict) : Q :=
  match d with
  | [] => 0
  | (_, v) :: d' => f v + sum_over f d'
  end.

(** The running total the loop keeps: [total += f(record)] per record. *)
Definition accumulate (f : visit -> Q) (d : odict) (start : Q) : Q :=
  fold_left (fun total kv => total + f (snd kv)) d start.

(** The entity after a successful [_calculate_statistics] that found the
    creation stamp [c] and the disposal stamp [d]. *)
Definition with_statistics (c d : Q) (self : t) : t :=
  {| creation_time := creation_time self;
     resources_requested := resources_requested self;
     disposal_time := disposal_time self;
     total_time := Some (d - c);
     waiting_time :=
       Some (accumulate waiting_of (resources_requested self) 0);
     processing_time :=
       Some (accumulate processing_of (resources_requested self) 0) |}.

(** The value a getter call returns, without the entity. *)
Definition returned (r : result (Q * t)) : result Q :=
  x <- r ;; Ok (fst x).

(** Two entity states agree on everything [_calculate_statistics] reads. *)
Definition same_inputs (e e' : t) : Prop :=
  creation_time e = creation_time e' /\
  disposal_time e = disposal_time e' /\
  resources_requested e = resources_requested e'.

(** The records of every resource but [k]. *)
Definition others (k : string) (d : odict) : odict :=
  filter (fun kv => negb (String.eqb (fst kv) k)) d.

End Entity.

(** ** Source *)

Module Source.

(** [number] is [None] for the default [float("Inf")]. *)
Record t : Type := mk {
  first_creation : option Q;
  number : option nat;
  entities : list Entity.t;
  count : nat
}.

(** [__init__]. *)
Definition init (first_creation : option Q) (number : option nat) : t :=
  {| first_creation := first_creation; number := number;
     entities := []; count := O |}.

(** [_interarrival_time_generator], on the delays the template yields. *)
Definition _interarrival_time_generator (template : list Q) (self : t) : list Q :=
  match first_creation self with
  | Some f => f :: template
  | None => template
  end.

Definition reached_number (self : t) : bool :=
  match number self with
  | Some n => Nat.eqb (List.length (entities self)) n
  | None => false
  end.

(** One iteration of the loop of [next_entity] for the delay [time], where
    [built] is what [self.build_entity()] returns.  The result is the
    updated source and the yielded entity, or [None] on [break]. *)
Definition next_entity_iter (now time : Q) (built : Entity.t) (self : t)
  : t * option Entity.t :=
  let counted :=
    {| first_creation := first_creation self; number := number self;
       entities := entities self; count := S (count self) |} in
  if reached_number counted then (counted, None)
  else
    let creation_time := now + time in
    let entity := Entity.set_creation_time creation_time built in
    ({| first_creation := first_creation self; number := number self;
        entities := entities self ++ [entity]; count := S (count self) |},
     Some entity).

Definition _get_disposed_entities (self : t) : list Entity.t :=
  filter Entity.is_disposed (entities self).

(** [[getter(entity) for entity in es]]: evaluated left to right, the
    first exception ends the comprehension.  The statistics attributes the
    getter writes on each entity are overwritten by every later getter
    call before they are read, so only the returned values are kept. *)
Fixpoint comprehension (getter : Entity.t -> result (Q * Entity.t))
    (es : list Entity.t) : result (list Q) :=
  match es with
  | [] => Ok []
  | entity :: es' =>
      r <- getter entity ;;
      rest <- comprehension getter es' ;;
      Ok (fst r :: rest)
  end.

Definition get_total_times (self : t) : result (list Q) :=
  comprehension Entity.get_total_time (_get_disposed_entities self).

Definition get_waiting_times (self : t) : result (list Q) :=
  comprehension Entity.get_total_waiting_time (_get_disposed_entities self).

Definition get_processing_times (self : t) : result (list Q) :=
  comprehension Entity.get_total_processing_time (_get_disposed_entities self).

(** A call made on the [i]-th entity of the list: the entity object is
    shared with the list, so the list sees the update. *)
Fixpoint replace_nth (i : nat) (e : Entity.t) (es : list Entity.t) : list Entity.t :=
  match es, i with
  | [], _ => []
  | _ :: es', O => e :: es'
  | x :: es', S j => x :: replace_nth j e es'
  end.

Definition call_entity (i : nat) (c : Entity.call) (self : t) : result t :=
  match nth_error (entities self) i with
  | None => Ok self
  | Some e =>
      e' <- Entity.run_call c e ;;
      Ok {| first_creation := first_creation self; number := number self;
            entities := replace_nth i e' (entities self); count := count self |}
  end.

Fixpoint run_calls (cs : list (nat * Entity.call)) (self : t) : result t :=
  match cs with
  | [] => Ok self
  | (i, c) :: cs' => self' <- call_entity i c self ;; run_calls cs' self'
  end.

(** Every entity in the list carries a creation stamp and a well-formed
    dictionary. *)
Definition inv (self : t) : Prop :=
  Forall (fun e => Entity.wf e /\ Entity.creation_time e <> None) (entities self).

End Source.

(** ** Vocabulary for further properties of an entity *)

Module EntityFacts.

(** The resource a call stamps, if any. *)
Definition call_target (c : Entity.call) : option string :=
  match c with
  | Entity.Request r _ => Some r
  | Entity.StartService r _ => Some r
  | Entity.Release r _ => Some r
  | Entity.Dispose _ => None
  end.

(** The resource names a sequence of calls requests, each once, in the
    order of their first request. *)
Definition add_key (keys : list string) (r : string) : list string :=
  if existsb (String.eqb r) keys then keys else keys ++ [r].

Definition visit_order (cs : list Entity.call) : list string :=
  fold_left
    (fun keys c => match c with Entity.Request r _ => add_key keys r | _ => keys end)
    cs [].

(** Time from arrival at a resource to the end of service there. *)
Definition sojourn_of (v : Entity.visit) : Q :=
  Entity.finish_service_time v - Entity.arrival_time v.

(** The three stamps of a record follow the clock. *)
Definition in_clock_order (v : Entity.visit) : Prop :=
  Entity.arrival_time v <= Entity.start_service_time v /\
  Entity.start_service_time v <= Entity.finish_service_time v.

(** The three stamps of a record are Python [int]s, on which the
    subtractions and sums of the statistics are exact. *)
Definition integer_stamps (v : Entity.visit) : Prop :=
  exists a s f : Z,
    Entity.arrival_time v = inject_Z a /\
    Entity.start_service_time v = inject_Z s /\
    Entity.finish_service_time v = inject_Z f.

End EntityFacts.

(** ** The entity with its [name] attribute *)

(** [Entity.__init__] assigns no [name]; [Source.next_entity] assigns it
    after [creation_time], a subclass may define it as a class attribute,
    and a model may assign it to an entity it builds itself.  Every method
    that prints reads [self.name], which raises [AttributeError] when the
    attribute is missing.  This module puts that read in front of the
    entity-side methods of [Entity]. *)
Module NamedEntity.

Record t : Type := mk {
  name : option string;
  state : Entity.t
}.

(** A freshly constructed entity; [cls_name] is the class attribute
    [name], if the subclass defines one. *)
Definition init (cls_name : option string) : t :=
  {| name := cls_name; state := Entity.init |}.

(** [entity.name = n]. *)
Definition assign_name (n : string) (self : t) : t :=
  {| name := Some n; state := state self |}.

(** [entity.creation_time = c]. *)
Definition assign_creation_time (c : Q) (self : t) : t :=
  {| name := name self; state := Entity.set_creation_time c (state self) |}.

(** [self.name] inside an f-string. *)
Definition read_name (self : t) : result string :=
  match name self with
  | Some n => Ok n
  | None => Err (AttributeError "name")
  end.

(** The entity's own steps of [request_resource]: the print, the reset of
    the record and the arrival stamp.  The call then returns what
    [resource.request] returns, which is the resource's business. *)
Definition request_resource (now : Q) (resource_name : string) (self : t)
  : result t :=
  _ <- read_name self ;;
  st <- Entity.request_resource now resource_name (state self) ;;
  Ok {| name := name self; state := st |}.

Definition start_service_at_resource (now : Q) (resource_name : string) (self : t)
  : result t :=
  _ <- read_name self ;;
  st <- Entity.start_service_at_resource now resource_name (state self) ;;
  Ok {| name := name self; state := st |}.

Definition release_resource (now : Q) (resource_name : string) (self : t)
  : result t :=
  _ <- read_name self ;;
  st <- Entity.release_resource now resource_name (state self) ;;
  Ok {| name := name self; state := st |}.

(** [dispose] assigns [disposal_time] first and prints afterwards: the
    entity is stamped even when the print raises. *)
Definition dispose (now : Q) (self : t) : t * result Q :=
  ({| name := name self; state := snd (Entity.dispose now (state self)) |},
   _ <- read_name self ;; Ok (fst (Entity.dispose now (state self)))).

(** The getters print nothing. *)
Definition get_total_time (self : t) : result (Q * Entity.t) :=
  Entity.get_total_time (state self).
Definition get_total_waiting_time (self : t) : result (Q * Entity.t) :=
  Entity.get_total_waiting_time (state self).
Definition get_total_processing_time (self : t) : result (Q * Entity.t) :=
  Entity.get_total_processing_time (state self).

End NamedEntity.

(** ** Construction of an entity: attributes and priority *)

Module EntityInit.

(** Attribute values: the ones the model needs to tell apart. *)
Inductive pyvalue : Type :=
| PyInt (z : Z)
| PyStr (s : string)
| PyNone.

(** The [attributes] dictionary. *)
Definition attrs : Type := list (string * pyvalue).

Fixpoint a_get (d : attrs) (k : string) : option pyvalue :=
  match d with
  | [] => None
  | (k', v) :: d' => if String.eqb k' k then Some v else a_get d' k
  end.

Fixpoint a_set (d : attrs) (k : string) (v : pyvalue) : attrs :=
  match d with
  | [] => [(k, v)]
  | (k', v') :: d' =>
      if String.eqb k' k then (k', v) :: d' else (k', v') :: a_set d' k v
  end.

(** What reading an attribute of the instance finds: nothing (the read
    raises [AttributeError]), [None], or a value. *)
Inductive lookup : Type := Missing | IsNone | Found.

Inductive init_error : Type :=
| NotImplementedError (msg : string)
| AttributeErr (attr : string).

Inductive outcome (A : Type) : Type :=
| Built (a : A)
| Raised (e : init_error).

Arguments Built {A} a.
Arguments Raised {A} e.

Definition process_msg : string :=
  "You must define a function called 'process' in your entity class".

(** The priority [__init__] settles on: the attribute if present, else the
    class attribute if the class has one, else [0]. *)
Definition resolve_priority (class_priority : option pyvalue) (a : attrs) : pyvalue :=
  match a_get a "priority" with
  | Some p => p
  | None =>
      match class_priority with
      | Some p => p
      | None => PyInt 0
      end
  end.

(** [__init__(self, env, attributes)]: [process] is what [self.process]
    finds, [class_priority] the class attribute [priority] if the class has
    one, [attributes] the argument ([None] for Python's [None]).  The result
    is the attribute dictionary; the other fields start as in
    [Entity.init]. *)
Definition init (process : lookup) (class_priority : option pyvalue)
    (attributes : option attrs) : outcome (attrs * Entity.t) :=
  match process with
  | Missing => Raised (AttributeErr "process")
  | IsNone => Raised (NotImplementedError process_msg)
  | Found =>
      let a := match attributes with Some d => d | None => [] end in
      Built (a_set a "priority" (resolve_priority class_priority a), Entity.init)
  end.

Definition set_attribute (attribute_name : string) (attribute_value : pyvalue)
    (a : attrs) : attrs :=
  a_set a attribute_name attribute_value.

Definition set_attributes (sets : list (string * pyvalue)) (a : attrs) : attrs :=
  fold_left (fun d kv => set_attribute (fst kv) (snd kv) d) sets a.

(** The [priority=] argument [request_resource] passes to the resource:
    [None] stands for Python's [None] of the [else] branch. *)
Definition priority_argument (a : attrs) : option pyvalue :=
  if existsb (fun kv => String.eqb (fst kv) "priority") a
  then a_get a "priority"
  else None.

End EntityInit.

(** ** The loop of [Source.next_entity] *)

Module SourceLoop.

(** What one iteration reads from outside the source: the clock, the delay
    the generator yields, and the entity [build_entity] returns. *)
Record iteration : Type := mk_iteration {
  it_now : Q;
  it_time : Q;
  it_built : Entity.t
}.

(** The generator driven through the given iterations: the source at the
    end and the entities yielded, in order.  A [break] ends the loop. *)
Fixpoint next_entity (its : list iteration) (self : Source.t)
  : Source.t * list Entity.t :=
  match its with
  | [] => (self, [])
  | it :: its' =>
      match Source.next_entity_iter (it_now it) (it_time it) (it_built it) self with
      | (self', None) => (self', [])
      | (self', Some entity) =>
          (fst (next_entity its' self'), entity :: snd (next_entity its' self'))
      end
  end.

(** Sources reached from a fresh one by driving the generator and by calls
    on the entities of the list. *)
Inductive reachable : Source.t -> Prop :=
| reach_init (first_creation : option Q) (number : option nat) :
    reachable (Source.init first_creation number)
| reach_next (its : list iteration) (self : Source.t) :
    reachable self ->
    Forall (fun it => Entity.wf (it_built it)) its ->
    reachable (fst (next_entity its self))
| reach_call (i : nat) (c : Entity.call) (self self' : Source.t) :
    reachable self ->
    Source.call_entity i c self = Ok self' ->
    reachable self'.

End SourceLoop.

(** ** Scenarios *)

Module Scenario.

(** Two events logged at the same integer time 5. *)
Definition tie_break : RS.t :=
  RS.add_queue_check 5 3 (RS.request 5 2 (RS.init "Counter")).

(** The same two observations logged in the other order. *)
Definition tie_break_swapped : RS.t :=
  RS.request 5 2 (RS.add_queue_check 5 3 (RS.init "Counter")).

(** A log with events at ticks 1 and 3 only. *)
Definition sparse : RS.t :=
  RS.add_queue_check 3 1 (RS.request 1 4 (RS.init "Counter")).

(** An event at time 3/2, between events at the ticks 1 and 2. *)
Definition before_half : list RS.event := [(1, 2%nat, RS.request_status)].
Definition at_half : RS.event := (3 # 2, 9%nat, RS.start_status).
Definition after_half : list RS.event := [(2, 1%nat, RS.start_status)].

(** The scenario of the specification: created at 0, requests A at 0,
    service from 2 to 5, disposed at 5. *)
Definition customer : Entity.t := Entity.set_creation_time 0 Entity.init.

Definition customer_calls : list Entity.call :=
  [Entity.Request "A" 0; Entity.StartService "A" 2; Entity.Release "A" 5;
   Entity.Dispose 5].

Definition served_customer : Entity.t :=
  {| Entity.creation_time := Some 0;
     Entity.resources_requested := [("A"%string, Entity.mk_visit 0 2 5)];
     Entity.disposal_time := Some 5;
     Entity.total_time := None;
     Entity.waiting_time := None;
     Entity.processing_time := None |}.

(** The same customer before disposal. *)
Definition customer_in_service : Entity.t :=
  {| Entity.creation_time := Some 0;
     Entity.resources_requested := [("A"%string, Entity.mk_visit 0 2 0)];
     Entity.disposal_time := None;
     Entity.total_time := None;
     Entity.waiting_time := None;
     Entity.processing_time := None |}.

(** An entity built by hand rather than yielded by a [Source]: [__init__]
    leaves [creation_time = None], and the model disposes it at 5. *)
Definition never_created : Entity.t := snd (Entity.dispose 5 Entity.init).

(** An entity that has been through A and B and comes back to A. *)
Definition after_first_round : Entity.t :=
  {| Entity.creation_time := Some 0;
     Entity.resources_requested :=
       [("A"%string, Entity.mk_visit 0 2 5); ("B"%string, Entity.mk_visit 5 6 8)];
     Entity.disposal_time := None;
     Entity.total_time := None;
     Entity.waiting_time := None;
     Entity.processing_time := None |}.

Definition after_second_visit : Entity.t :=
  Entity.set_resources_requested
    [("A"%string, Entity.mk_visit 8 11 12); ("B"%string, Entity.mk_visit 5 6 8)]
    after_first_round.

(** A source that produced three entities, at 1, 3 and 4. *)
Definition three_spawned : Source.t :=
  fst (Source.next_entity_iter 3 1 Entity.init
    (fst (Source.next_entity_iter 1 2 Entity.init
      (fst (Source.next_entity_iter 0 1 Entity.init (Source.init None None)))))).

(** The first and the third entity are served and disposed; the second is
    still in service. *)
Definition three_calls : list (nat * Entity.call) :=
  [(0%nat, Entity.Request "A" 1); (0%nat, Entity.StartService "A" 1);
   (1%nat, Entity.Request "A" 3);
   (0%nat, Entity.Release "A" 4); (0%nat, Entity.Dispose 4);
   (1%nat, Entity.StartService "A" 4);
   (2%nat, Entity.Request "B" 4); (2%nat, Entity.StartService "B" 5);
   (2%nat, Entity.Release "B" 6); (2%nat, Entity.Dispose 6)].

Definition spawned (c : Q) (d : option Q) (visits : Entity.odict) : Entity.t :=
  {| Entity.creation_time := Some c;
     Entity.resources_requested := visits;
     Entity.disposal_time := d;
     Entity.total_time := None;
     Entity.waiting_time := None;
     Entity.processing_time := None |}.

Definition busy_source : Source.t :=
  {| Source.first_creation := None;
     Source.number := None;
     Source.entities :=
       [spawned (0 + 1) (Some 4) [("A"%string, Entity.mk_visit 1 1 4)];
        spawned (1 + 2) None [("A"%string, Entity.mk_visit 3 4 0)];
        spawned (3 + 1) (Some 6) [("B"%string, Entity.mk_visit 4 5 6)]];
     Source.count := 3 |}.

End Scenario.

(** ** Further scenarios *)

Module MoreScenarios.

(** A log with the ticks 1, 2 and 4 observed, and the same log backwards. *)
Definition ordered_log : list RS.event :=
  [(1, 2%nat, RS.request_status); (2, 5%nat, RS.start_status);
   (2, 3%nat, RS.request_status); (4, 1%nat, RS.start_status)].

Definition shuffled_log : list RS.event := rev ordered_log.

(** The ordered log with the two kinds of event exchanged. *)
Definition relabelled_log : list RS.event :=
  [(1, 2%nat, RS.start_status); (2, 5%nat, RS.request_status);
   (2, 3%nat, RS.start_status); (4, 1%nat, RS.request_status)].

Definition late_event : RS.event := (6, 9%nat, RS.request_status).

(** A customer who requested A at 1, was served from 3, and then queued at
    B from 6 without being served yet. *)
Definition queued_at_b_calls : list Entity.call :=
  [Entity.Request "A" 1; Entity.StartService "A" 3; Entity.Release "A" 6;
   Entity.Request "B" 6].

Definition served_at_a : Entity.t :=
  Scenario.spawned 0 None [("A"%string, Entity.mk_visit 1 3 6)].

Definition queued_at_b : Entity.t :=
  Scenario.spawned 0 None
    [("A"%string, Entity.mk_visit 1 3 6); ("B"%string, Entity.mk_visit 6 0 0)].

(** The same customer disposed at 9 while still queued at B. *)
Definition disposed_in_queue : Entity.t :=
  Scenario.spawned 0 (Some 9)
    [("A"%string, Entity.mk_visit 1 3 6); ("B"%string, Entity.mk_visit 6 0 0)].

(** Three iterations of the generator on a source bounded to two
    entities. *)
Definition three_iterations : list SourceLoop.iteration :=
  [SourceLoop.mk_iteration 0 1 Entity.init;
   SourceLoop.mk_iteration 1 2 Entity.init;
   SourceLoop.mk_iteration 3 1 Entity.init].

Definition bounded_source : Source.t := Source.init None (Some 2%nat).

(** An entity a model builds itself from a subclass that defines [name],
    never yielded by a [Source]: it goes through A (arrival 0, service from
    2 to 5) and is disposed at 5. *)
Definition hand_built : NamedEntity.t := NamedEntity.init (Some "Customer"%string).

Definition hand_built_served : NamedEntity.t :=
  {| NamedEntity.name := Some "Customer"%string;
     NamedEntity.state :=
       {| Entity.creation_time := None;
          Entity.resources_requested := [("A"%string, Entity.mk_visit 0 2 5)];
          Entity.disposal_time := Some 5;
          Entity.total_time := None;
          Entity.waiting_time := None;
          Entity.processing_time := None |} |}.

(** The same with integer stamps only and a creation stamp. *)
Definition on_integer_clock : Entity.t :=
  Scenario.spawned (inject_Z 0) (Some (inject_Z 9))
    [("A"%string, Entity.mk_visit (inject_Z 1) (inject_Z 3) (inject_Z 6));
     ("B"%string, Entity.mk_visit (inject_Z 6) (inject_Z 7) (inject_Z 9))].

End MoreScenarios.
(** ** Key equality on rational times *)

Lemma Qeq_bool_sym (x y : Q) : Qeq_bool x y = Qeq_bool y x.
Proof.
  destruct (Qeq_bool x y) eqn:E; symmetry.
  - apply Qeq_bool_iff. symmetry. now apply Qeq_bool_iff.
  - destruct (Qeq_bool y x) eqn:E'; [|reflexivity].
    apply Qeq_bool_iff in E'. symmetry in E'. apply Qeq_bool_iff in E'. congruence.
Qed.

Lemma Qeq_bool_trans_l (k t u : Q) :
  Qeq_bool k t = true -> Qeq_bool k u = Qeq_bool t u.
Proof.
  intro H. apply Qeq_bool_iff in H.
  destruct (Qeq_bool t u) eqn:E.
  - apply Qeq_bool_iff. apply Qeq_bool_iff in E. now rewrite H.
  - destruct (Qeq_bool k u) eqn:E'; [|reflexivity].
    apply Qeq_bool_iff in E'. rewrite H in E'. apply Qeq_bool_iff in E'. congruence.
Qed.

(** ** The grouping dictionary *)

Section Grouping.
Import ResourceStatsMixin.

Lemma d_get_d_add (d : dict) (t u : Q) (x : nat * status) :
  d_get (d_add d t x) u =
  if Qeq_bool t u
  then Some (match d_get d u with Some l => l ++ [x] | None => [x] end)
  else d_get d u.
Proof.
  induction d as [|[k l] d IH]; simpl.
  - destruct (Qeq_bool t u); reflexivity.
  - destruct (Qeq_bool k t) eqn:Ekt; simpl.
    + rewrite (Qeq_bool_trans_l k t u Ekt).
      destruct (Qeq_bool t u); reflexivity.
    + destruct (Qeq_bool k u) eqn:Eku.
      * assert (Qeq_bool t u = false) as ->; [|reflexivity].
        destruct (Qeq_bool t u) eqn:Etu; [|reflexivity].
        rewrite Qeq_bool_sym in Etu.
        rewrite Qeq_bool_sym in Eku.
        rewrite (Qeq_bool_trans_l u t k Etu) in Eku.
        rewrite Qeq_bool_sym in Eku. congruence.
      * apply IH.
Qed.

Lemma d_get_fold (qs : list event) : forall (d : dict) (u : Q),
  d_get (fold_left group_step qs d) u =
  match d_get d u, pairs_at u qs with
  | Some l, p => Some (l ++ p)
  | None, [] => None
  | None, p => Some p
  end.
Proof.
  induction qs as [|e qs IH]; intros d u; simpl.
  - unfold pairs_at; simpl. destruct (d_get d u); [now rewrite app_nil_r | reflexivity].
  - rewrite IH. unfold group_step. rewrite d_get_d_add.
    unfold pairs_at, events_at. simpl.
    destruct (Qeq_bool (ev_time e) u); simpl.
    + destruct (d_get d u); simpl; [now rewrite <- app_assoc | reflexivity].
    + reflexivity.
Qed.

Lemma d_get_group (qs : list event) (u : Q) :
  d_get (group_by_time qs) u =
  match pairs_at u qs with
  | [] => None
  | p => Some p
  end.
Proof. unfold group_by_time. rewrite d_get_fold. reflexivity. Qed.

Lemma biggest_fold (l : list (nat * status)) : forall b : nat,
  fold_left (fun biggest x => if biggest <? fst x then fst x else biggest)%nat l b
  = Nat.max b (list_max (map fst l)).
Proof.
  induction l as [|x l IH]; intro b; simpl.
  - now rewrite Nat.max_0_r.
  - rewrite IH. destruct (Nat.ltb_spec b (fst x)); lia.
Qed.

Lemma biggest_is_list_max (l : list (nat * status)) :
  biggest_size_of_activity l = list_max (map fst l).
Proof. unfold biggest_size_of_activity. now rewrite biggest_fold. Qed.

Lemma map_fst_pairs_at (u : Q) (qs : list event) :
  map fst (pairs_at u qs) = sizes_at u qs.
Proof. unfold pairs_at, sizes_at. now rewrite map_map. Qed.

(** What one tick reads from the dictionary, in terms of the log. *)
Lemma tick_value (qs : list event) (cur : nat) (i : nat) :
  match d_get (group_by_time qs) (tick_key i) with
  | Some l => biggest_size_of_activity l
  | None => cur
  end
  = match sizes_at (tick_key i) qs with
    | [] => cur
    | l => list_max l
    end.
Proof.
  rewrite d_get_group, <- map_fst_pairs_at.
  destruct (pairs_at (tick_key i) qs) as [|p ps] eqn:E; [reflexivity|].
  now rewrite biggest_is_list_max.
Qed.

Lemma fold_tick (qs : list event) (n : nat) :
  fold_left (tick (group_by_time qs)) (seq 0 n) (0%nat, [])
  = (match n with O => 0%nat | S m => value_at qs m end,
     map (value_at qs) (seq 0 n)).
Proof.
  induction n as [|n IH]; [reflexivity|].
  rewrite seq_S, fold_left_app, IH, map_app. simpl.
  unfold tick at 1. cbn [fst snd]. rewrite tick_value.
  destruct n as [|m]; simpl; reflexivity.
Qed.

Lemma RS_eq (now : Q) (self : t) :
  queue_size_over_time now self
  = map (value_at (queue_size self)) (seq 0 (Z.to_nat (py_int now))).
Proof. unfold queue_size_over_time, py_range. now rewrite fold_tick. Qed.

Lemma RS_length (now : Q) (self : t) :
  List.length (queue_size_over_time now self) = Z.to_nat (py_int now).
Proof. now rewrite RS_eq, length_map, length_seq. Qed.

Lemma RS_nth (now : Q) (self : t) (i : nat) :
  (i < List.length (queue_size_over_time now self))%nat ->
  nth i (queue_size_over_time now self) 0%nat = value_at (queue_size self) i.
Proof.
  rewrite RS_length, RS_eq. intro H.
  rewrite (nth_indep _ 0%nat (value_at (queue_size self) 0%nat))
    by now rewrite length_map, length_seq.
  rewrite map_nth, seq_nth by assumption. reflexivity.
Qed.

Lemma py_int_floor (x : Q) : Z.to_nat (py_int x) = Z.to_nat (Qfloor x).
Proof.
  unfold py_int. destruct x as [n d]. simpl.
  destruct (Z.le_gt_cases 0 n) as [Hn|Hn].
  - now rewrite Z.quot_div_nonneg by lia.
  - assert (n / Z.pos d < 0)%Z by (apply Z.div_lt_upper_bound; lia).
    assert (n ÷ Z.pos d <= 0)%Z by (apply Z.quot_le_upper_bound; lia).
    lia.
Qed.

Lemma list_max_in (l : list nat) : l <> [] -> In (list_max l) l.
Proof.
  induction l as [|a l IH]; [congruence|]. intros _.
  destruct l as [|b l].
  - simpl. left. lia.
  - change (list_max (a :: b :: l)) with (Nat.max a (list_max (b :: l))).
    destruct (Nat.max_spec a (list_max (b :: l))) as [[_ ->]|[_ ->]].
    + right. apply IH. congruence.
    + now left.
Qed.

Lemma value_at_ext (qs qs' : list event) :
  (forall i, sizes_at (tick_key i) qs = sizes_at (tick_key i) qs') ->
  forall i, value_at qs i = value_at qs' i.
Proof.
  intros H i. induction i as [|i IH]; cbn [value_at]; rewrite H; [reflexivity|].
  now rewrite IH.
Qed.

Lemma value_at_observed (qs : list event) (i : nat) :
  value_at qs i = 0%nat \/ In (value_at qs i) (map ev_size qs).
Proof.
  assert (Hin : forall u, sizes_at u qs <> [] ->
                 In (list_max (sizes_at u qs)) (map ev_size qs)).
  { intros u Hne. apply list_max_in in Hne.
    unfold sizes_at, events_at in Hne. apply in_map_iff in Hne.
    destruct Hne as [e [He Hf]]. apply filter_In in Hf.
    apply in_map_iff. exists e. tauto. }
  induction i as [|i IH]; cbn [value_at].
  - destruct (sizes_at (tick_key 0) qs) eqn:E; [now left|].
    right. rewrite <- E. apply Hin. congruence.
  - destruct (sizes_at (tick_key (S i)) qs) eqn:E; [exact IH|].
    right. rewrite <- E. apply Hin. congruence.
Qed.

End Grouping.

(** ** The reconstructed queue-length series *)

Example tie_break_series :
  RS.queue_size_over_time 6 Scenario.tie_break = [0; 0; 0; 0; 0; 3]%nat.
Proof. reflexivity. Qed.

Example tie_break_swapped_series :
  RS.queue_size_over_time 6 Scenario.tie_break_swapped = [0; 0; 0; 0; 0; 3]%nat.
Proof. reflexivity. Qed.

Example sparse_series :
  RS.queue_size_over_time (11 # 2) Scenario.sparse = [0; 4; 4; 1; 1]%nat.
Proof. reflexivity. Qed.

(** C1: at an integer tick [i] of the series at which one or more events
    were logged with a timestamp equal to [i], the value of the series at
    index [i] is the maximum of the queue lengths logged at that timestamp:
    it is one of them, and no other one exceeds it. *)
Theorem queue_size_at_tick_is_max (now : Q) (self : RS.t) (i : nat) :
  (i < List.length (RS.queue_size_over_time now self))%nat ->
  RS.sizes_at (RS.tick_key i) (RS.queue_size self) <> [] ->
  nth i (RS.queue_size_over_time now self) 0%nat
    = list_max (RS.sizes_at (RS.tick_key i) (RS.queue_size self)) /\
  In (nth i (RS.queue_size_over_time now self) 0%nat)
     (RS.sizes_at (RS.tick_key i) (RS.queue_size self)) /\
  Forall (fun s => (s <= nth i (RS.queue_size_over_time now self) 0%nat)%nat)
     (RS.sizes_at (RS.tick_key i) (RS.queue_size self)).
Proof.
  intros Hi Hne.
  rewrite RS_nth by exact Hi.
  assert (E : RS.value_at (RS.queue_size self) i
              = list_max (RS.sizes_at (RS.tick_key i) (RS.queue_size self))).
  { destruct i; cbn [RS.value_at];
      destruct (RS.sizes_at _ (RS.queue_size self)); congruence. }
  rewrite E. split; [reflexivity|]. split.
  - now apply list_max_in.
  - now apply list_max_le.
Qed.

(** The tie-break scenario of the specification: events [(5, 2, request)]
    and [(5, 3, start)], value 3 at tick 5. *)
Lemma queue_size_at_tick_is_max_witness :
  (5 < List.length (RS.queue_size_over_time 6 Scenario.tie_break))%nat /\
  RS.sizes_at (RS.tick_key 5) (RS.queue_size Scenario.tie_break) <> [] /\
  nth 5 (RS.queue_size_over_time 6 Scenario.tie_break) 0%nat = 3%nat.
Proof.
  assert (H1 : (5 < List.length (RS.queue_size_over_time 6 Scenario.tie_break))%nat)
    by (vm_compute; lia).
  assert (H2 : RS.sizes_at (RS.tick_key 5) (RS.queue_size Scenario.tie_break) <> [])
    by (vm_compute; discriminate).
  split; [exact H1|]. split; [exact H2|].
  exact (proj1 (queue_size_at_tick_is_max 6 Scenario.tie_break 5 H1 H2)).
Defined.

(** C2: the series has [floor(now)] entries; at a tick with no event logged
    exactly there the value is that of the tick before; before any logged
    tick the value is 0; and every value is 0 or a logged queue length (a
    natural number). *)
Theorem queue_size_over_time_shape (now : Q) (self : RS.t) :
  List.length (RS.queue_size_over_time now self) = Z.to_nat (Qfloor now) /\
  (forall i : nat,
     (S i < List.length (RS.queue_size_over_time now self))%nat ->
     RS.sizes_at (RS.tick_key (S i)) (RS.queue_size self) = [] ->
     nth (S i) (RS.queue_size_over_time now self) 0%nat
       = nth i (RS.queue_size_over_time now self) 0%nat) /\
  (forall i : nat,
     (i < List.length (RS.queue_size_over_time now self))%nat ->
     (forall j : nat, (j <= i)%nat ->
        RS.sizes_at (RS.tick_key j) (RS.queue_size self) = []) ->
     nth i (RS.queue_size_over_time now self) 0%nat = 0%nat) /\
  Forall (fun v => v = 0%nat \/ In v (map RS.ev_size (RS.queue_size self)))
     (RS.queue_size_over_time now self).
Proof.
  split; [|split; [|split]].
  - now rewrite RS_length, py_int_floor.
  - intros i Hi Hnone.
    rewrite !RS_nth by lia. cbn [RS.value_at]. now rewrite Hnone.
  - intros i Hi Hnone. rewrite RS_nth by exact Hi.
    induction i as [|i IH]; cbn [RS.value_at].
    + now rewrite (Hnone 0%nat) by lia.
    + rewrite (Hnone (S i)) by lia. apply IH; [lia|].
      intros j Hj. apply Hnone. lia.
  - rewrite RS_eq. apply Forall_forall. intros v Hv.
    apply in_map_iff in Hv. destruct Hv as [i [<- _]].
    apply value_at_observed.
Qed.

Lemma queue_size_over_time_shape_witness :
  List.length (RS.queue_size_over_time (11 # 2) Scenario.sparse) = 5%nat /\
  nth 2 (RS.queue_size_over_time (11 # 2) Scenario.sparse) 0%nat
    = nth 1 (RS.queue_size_over_time (11 # 2) Scenario.sparse) 0%nat /\
  nth 0 (RS.queue_size_over_time (11 # 2) Scenario.sparse) 0%nat = 0%nat.
Proof.
  destruct (queue_size_over_time_shape (11 # 2) Scenario.sparse)
    as [Hlen [Hhold [Hzero _]]].
  split; [exact Hlen|]. split.
  - apply (Hhold 1%nat); [vm_compute; lia | reflexivity].
  - apply (Hzero 0%nat); [vm_compute; lia|].
    intros j Hj. assert (j = 0%nat) as -> by lia. reflexivity.
Defined.

Lemma between_ticks_no_key (time : Q) (z : Z) (i : nat) :
  inject_Z z < time -> time < inject_Z (z + 1) ->
  Qeq_bool time (RS.tick_key i) = false.
Proof.
  intros Hlo Hhi. destruct (Qeq_bool time (RS.tick_key i)) eqn:E; [|reflexivity].
  apply Qeq_bool_iff in E. unfold RS.tick_key in E.
  rewrite E in Hlo, Hhi.
  rewrite <- Zlt_Qlt in Hlo, Hhi. lia.
Qed.

(** C7: an event logged at a time strictly between two consecutive
    integers changes no entry of the series: the series of the log with the
    event is the series of the log without it. *)
Theorem fractional_event_not_on_tick
    (now : Q) (nm : string) (before after : list RS.event) (e : RS.event) (z : Z) :
  inject_Z z < RS.ev_time e ->
  RS.ev_time e < inject_Z (z + 1) ->
  RS.queue_size_over_time now (RS.mk nm (before ++ e :: after))
    = RS.queue_size_over_time now (RS.mk nm (before ++ after)).
Proof.
  intros Hlo Hhi. rewrite !RS_eq. cbn [RS.queue_size].
  apply map_ext. apply value_at_ext. intro i.
  unfold RS.sizes_at, RS.events_at. rewrite !filter_app. cbn [filter].
  now rewrite (between_ticks_no_key _ z i Hlo Hhi).
Qed.

Lemma fractional_event_not_on_tick_witness :
  inject_Z 1 < RS.ev_time Scenario.at_half /\
  RS.ev_time Scenario.at_half < inject_Z (1 + 1) /\
  RS.queue_size_over_time (7 # 2)
    (RS.mk "Counter" (Scenario.before_half ++ Scenario.at_half :: Scenario.after_half))
  = RS.queue_size_over_time (7 # 2)
    (RS.mk "Counter" (Scenario.before_half ++ Scenario.after_half)).
Proof.
  assert (H1 : inject_Z 1 < RS.ev_time Scenario.at_half) by reflexivity.
  assert (H2 : RS.ev_time Scenario.at_half < inject_Z (1 + 1)) by reflexivity.
  split; [exact H1|]. split; [exact H2|].
  exact (fractional_event_not_on_tick (7 # 2) "Counter" Scenario.before_half
           Scenario.after_half Scenario.at_half 1 H1 H2).
Defined.

(** ** The ordered dictionary of visit records *)

Section OrderedDict.
Import Entity.

Lemma od_get_set_same (d : odict) (k : string) (v : visit) :
  od_get (od_set d k v) k = Some v.
Proof.
  induction d as [|[k' v'] d IH]; simpl.
  - now rewrite String.eqb_refl.
  - destruct (String.eqb k' k) eqn:E; simpl; rewrite E; [reflexivity | exact IH].
Qed.

Lemma od_get_set_other (d : odict) (k k' : string) (v : visit) :
  k <> k' -> od_get (od_set d k v) k' = od_get d k'.
Proof.
  intro Hne. induction d as [|[k0 v0] d IH]; simpl.
  - apply String.eqb_neq in Hne. now rewrite Hne.
  - destruct (String.eqb k0 k) eqn:E; simpl.
    + apply String.eqb_eq in E. subst k0.
      apply String.eqb_neq in Hne. now rewrite Hne.
    + now rewrite IH.
Qed.

Lemma od_get_in (d : odict) (k : string) (v : visit) :
  od_get d k = Some v -> In (k, v) d.
Proof.
  induction d as [|[k' v'] d IH]; simpl; [discriminate|].
  destruct (String.eqb k' k) eqn:E.
  - apply String.eqb_eq in E. intros [= ->]. left. now subst.
  - intro H. right. now apply IH.
Qed.

Lemma od_get_none_keys (d : odict) (k : string) :
  od_get d k = None <-> ~ In k (map fst d).
Proof.
  induction d as [|[k' v'] d IH]; simpl; [tauto|].
  destruct (String.eqb k' k) eqn:E.
  - apply String.eqb_eq in E. split; [discriminate | intro H; exfalso; apply H; now left].
  - apply String.eqb_neq in E. rewrite IH. tauto.
Qed.

Lemma in_od_get (d : odict) (k : string) (v : visit) :
  NoDup (map fst d) -> In (k, v) d -> od_get d k = Some v.
Proof.
  induction d as [|[k' v'] d IH]; simpl; [tauto|].
  intros Hnd Hin. apply NoDup_cons_iff in Hnd. destruct Hnd as [Hnotin Hnd].
  destruct Hin as [[= -> ->]|Hin].
  - now rewrite String.eqb_refl.
  - destruct (String.eqb k' k) eqn:E.
    + apply String.eqb_eq in E. subst k'. exfalso. apply Hnotin.
      apply in_map_iff. now exists (k, v).
    + now apply IH.
Qed.

Lemma od_set_keys (d : odict) (k : string) (v : visit) :
  map fst (od_set d k v)
  = match od_get d k with
    | Some _ => map fst d
    | None => map fst d ++ [k]
    end.
Proof.
  induction d as [|[k' v'] d IH]; simpl; [reflexivity|].
  destruct (String.eqb k' k) eqn:E; simpl; [reflexivity|].
  rewrite IH. now destruct (od_get d k).
Qed.

Lemma od_set_nodup (d : odict) (k : string) (v : visit) :
  NoDup (map fst d) -> NoDup (map fst (od_set d k v)).
Proof.
  intro Hnd. rewrite od_set_keys. destruct (od_get d k) eqn:E; [exact Hnd|].
  apply od_get_none_keys in E.
  apply NoDup_app; [exact Hnd | repeat constructor; simpl; tauto |].
  intros x Hx [<-|[]]. now apply E.
Qed.

Lemma others_set (d : odict) (k : string) (v : visit) :
  others k (od_set d k v) = others k d.
Proof.
  unfold others. induction d as [|[k' v'] d IH]; simpl.
  - now rewrite String.eqb_refl.
  - destruct (String.eqb k' k) eqn:E; simpl; rewrite E; simpl; [reflexivity|].
    now rewrite IH.
Qed.

Lemma accumulate_sum (f : visit -> Q) (d : odict) : forall start : Q,
  accumulate f d start == start + sum_over f d.
Proof.
  unfold accumulate. induction d as [|[k v] d IH]; intro start; simpl.
  - ring.
  - rewrite IH. simpl. ring.
Qed.

(** With distinct keys, replacing the record of [k] moves the sum by the
    difference of the two records. *)
Lemma sum_over_split (f : visit -> Q) (d : odict) (k : string) (v : visit) :
  NoDup (map fst d) -> od_get d k = Some v ->
  sum_over f d == sum_over f (others k d) + f v.
Proof.
  unfold others. induction d as [|[k' v'] d IH]; simpl; [discriminate|].
  intros Hnd Hget. apply NoDup_cons_iff in Hnd. destruct Hnd as [Hnotin Hnd].
  destruct (String.eqb k' k) eqn:E; simpl.
  - injection Hget as ->. apply String.eqb_eq in E. subst k'.
    assert (Hsame : filter (fun kv => negb (String.eqb (fst kv) k)) d = d).
    { apply forallb_filter_id. apply forallb_forall. intros [k0 v0] Hin. simpl.
      destruct (String.eqb k0 k) eqn:E0; [|reflexivity].
      apply String.eqb_eq in E0. subst k0. exfalso. apply Hnotin.
      apply in_map_iff. now exists (k, v0). }
    rewrite Hsame. ring.
  - rewrite (IH Hnd Hget). ring.
Qed.

End OrderedDict.

(** ** Statistics of an entity *)

Section Statistics.
Import Entity.

Lemma stats_loop_ext (self self' : t) (items : odict) : forall acc : Q * Q,
  resources_requested self = resources_requested self' ->
  stats_loop self items acc = stats_loop self' items acc.
Proof.
  induction items as [|[k v] items IH]; intros acc H; simpl; [reflexivity|].
  unfold _calculate_waiting_time_for_resource,
    _calculate_processing_time_for_resource.
  rewrite H. destruct (od_getitem (resources_requested self') k); simpl;
    [now apply IH | reflexivity].
Qed.

Lemma stats_loop_ok (self : t) (items : odict) : forall acc : Q * Q,
  (forall k v, In (k, v) items -> od_get (resources_requested self) k = Some v) ->
  stats_loop self items acc
  = Ok (accumulate waiting_of items (fst acc),
        accumulate processing_of items (snd acc)).
Proof.
  induction items as [|[k v] items IH]; intros acc H; simpl.
  - now destruct acc.
  - unfold _calculate_waiting_time_for_resource,
      _calculate_processing_time_for_resource, od_getitem.
    rewrite (H k v) by now left. simpl.
    rewrite IH by (intros k0 v0 Hin; apply H; now right). reflexivity.
Qed.

Lemma calculate_statistics_ok (self : t) (c d : Q) :
  wf self -> creation_time self = Some c -> disposal_time self = Some d ->
  _calculate_statistics self = Ok (with_statistics c d self).
Proof.
  intros Hwf Hc Hd. unfold _calculate_statistics, is_disposed, with_statistics.
  rewrite stats_loop_ok by (intros k v; now apply in_od_get).
  rewrite Hc, Hd. reflexivity.
Qed.

Lemma calculate_statistics_same_inputs (e e' : t) :
  same_inputs e e' -> _calculate_statistics e = _calculate_statistics e'.
Proof.
  intros [Hc [Hd Hr]]. unfold _calculate_statistics, is_disposed.
  rewrite (stats_loop_ext e e' _ _ Hr), Hc, Hd, Hr. reflexivity.
Qed.

Lemma calculate_statistics_keeps_inputs (e e' : t) :
  _calculate_statistics e = Ok e' -> same_inputs e e'.
Proof.
  unfold _calculate_statistics.
  destruct (negb (is_disposed e)); [discriminate|].
  destruct (stats_loop e (resources_requested e) (0, 0)); simpl; [|discriminate].
  destruct (py_sub (disposal_time e) (creation_time e)); simpl; [|discriminate].
  intros [= <-]. repeat split.
Qed.

Lemma getters_not_disposed (self : t) :
  disposal_time self = None ->
  get_total_time self = Err (Exception total_time_msg) /\
  get_total_waiting_time self = Err (Exception waiting_time_msg) /\
  get_total_processing_time self = Err (Exception processing_time_msg).
Proof.
  intro H. unfold get_total_time, get_total_waiting_time,
    get_total_processing_time, is_disposed. now rewrite H.
Qed.

Lemma getters_ok (self : t) (c d : Q) :
  wf self -> creation_time self = Some c -> disposal_time self = Some d ->
  get_total_time self = Ok (d - c, with_statistics c d self) /\
  get_total_waiting_time self
    = Ok (accumulate waiting_of (resources_requested self) 0,
          with_statistics c d self) /\
  get_total_processing_time self
    = Ok (accumulate processing_of (resources_requested self) 0,
          with_statistics c d self).
Proof.
  intros Hwf Hc Hd. unfold get_total_time, get_total_waiting_time,
    get_total_processing_time, is_disposed.
  rewrite Hd, (calculate_statistics_ok self c d Hwf Hc Hd). now simpl.
Qed.

Lemma getters_same_inputs (e e' : t) :
  same_inputs e e' ->
  get_total_time e = get_total_time e' /\
  get_total_waiting_time e = get_total_waiting_time e' /\
  get_total_processing_time e = get_total_processing_time e'.
Proof.
  intro H. pose proof (calculate_statistics_same_inputs e e' H) as Hcalc.
  destruct H as [_ [Hd _]].
  unfold get_total_time, get_total_waiting_time, get_total_processing_time,
    is_disposed. now rewrite Hd, Hcalc.
Qed.

Lemma getter_keeps_inputs (e e' : t) (v : Q) :
  get_total_time e = Ok (v, e') \/
  get_total_waiting_time e = Ok (v, e') \/
  get_total_processing_time e = Ok (v, e') ->
  same_inputs e e'.
Proof.
  unfold get_total_time, get_total_waiting_time, get_total_processing_time,
    read_attr.
  intros H. destruct (is_disposed e); [|now destruct H as [H|[H|H]]].
  destruct (_calculate_statistics e) as [e1|] eqn:E; simpl in H;
    [|now destruct H as [H|[H|H]]].
  apply calculate_statistics_keeps_inputs in E.
  destruct H as [H|[H|H]];
    [destruct (total_time e1) | destruct (waiting_time e1)
     | destruct (processing_time e1)];
    try discriminate; injection H as _ <-; exact E.
Qed.

End Statistics.

(** ** Calls on an entity *)

Section Calls.
Import Entity.

Lemma od_set_set (d : odict) (k : string) (v v' : visit) :
  od_set (od_set d k v) k v' = od_set d k v'.
Proof.
  induction d as [|[k0 v0] d IH]; simpl.
  - now rewrite String.eqb_refl.
  - destruct (String.eqb k0 k) eqn:E; simpl; rewrite E; [reflexivity|].
    now rewrite IH.
Qed.

Lemma update_visit_ok (f : visit -> visit) (r : string) (e : t) (v : visit) :
  od_get (resources_requested e) r = Some v ->
  update_visit f r e
  = Ok (set_resources_requested (od_set (resources_requested e) r (f v)) e).
Proof. intro H. unfold update_visit, od_getitem. now rewrite H. Qed.

Lemma update_visit_inv (f : visit -> visit) (r : string) (e e' : t) :
  update_visit f r e = Ok e' ->
  exists v, od_get (resources_requested e) r = Some v /\
            e' = set_resources_requested (od_set (resources_requested e) r (f v)) e.
Proof.
  unfold update_visit, od_getitem.
  destruct (od_get (resources_requested e) r) as [v|]; simpl; [|discriminate].
  intros [= <-]. now exists v.
Qed.

Lemma update_visit_missing (f : visit -> visit) (r : string) (e : t) :
  od_get (resources_requested e) r = None ->
  update_visit f r e = Err (KeyError r).
Proof. intro H. unfold update_visit, od_getitem. now rewrite H. Qed.

(** A request never raises: it leaves the record [(now, 0, 0)] under the
    resource name, whatever was recorded there before. *)
Lemma request_resource_ok (now : Q) (r : string) (e : t) :
  request_resource now r e
  = Ok (set_resources_requested
          (od_set (resources_requested e) r (mk_visit now 0 0)) e).
Proof.
  unfold request_resource, _add_resource_to_visited.
  rewrite (update_visit_ok _ _ _ _empty_resource_tracking_dict)
    by (simpl; apply od_get_set_same).
  simpl. now rewrite od_set_set.
Qed.

Lemma run_call_keeps (c : call) (e e' : t) :
  run_call c e = Ok e' ->
  creation_time e' = creation_time e /\
  (wf e -> wf e') /\
  ((forall now, c <> Dispose now) -> disposal_time e' = disposal_time e).
Proof.
  destruct c as [r now|r now|r now|now]; simpl.
  - rewrite request_resource_ok. intros [= <-]. simpl.
    repeat split; auto. unfold wf. simpl. apply od_set_nodup.
  - intro H. apply update_visit_inv in H. destruct H as [v [_ ->]]. simpl.
    repeat split; auto. unfold wf. simpl. apply od_set_nodup.
  - intro H. apply update_visit_inv in H. destruct H as [v [_ ->]]. simpl.
    repeat split; auto. unfold wf. simpl. apply od_set_nodup.
  - intros [= <-]. simpl. repeat split; auto.
    intro H. now destruct (H now).
Qed.

Lemma run_keeps (cs : list call) : forall e e' : t,
  run cs e = Ok e' ->
  creation_time e' = creation_time e /\ (wf e -> wf e').
Proof.
  induction cs as [|c cs IH]; intros e e'; simpl.
  - intros [= <-]. tauto.
  - destruct (run_call c e) as [e1|] eqn:E; simpl; [|discriminate].
    intro H. apply IH in H. apply run_call_keeps in E.
    destruct H as [H1 H2], E as [E1 [E2 _]]. split; [congruence | tauto].
Qed.

Lemma wf_init : wf init.
Proof. unfold wf. simpl. constructor. Qed.

End Calls.

(** ** Which resources an entity has visited *)

Section Visited.
Import Entity.

Lemma od_set_visited (d : odict) (k k' : string) (v : visit) :
  od_get (od_set d k v) k' <> None <-> k = k' \/ od_get d k' <> None.
Proof.
  destruct (string_dec k k') as [<-|Hne].
  - rewrite od_get_set_same. split; [now left | discriminate].
  - rewrite od_get_set_other by exact Hne. tauto.
Qed.

Lemma run_call_visited (c : call) (e e' : t) (r : string) :
  run_call c e = Ok e' ->
  (od_get (resources_requested e') r <> None <->
   od_get (resources_requested e) r <> None \/ exists now, c = Request r now).
Proof.
  destruct c as [r' now|r' now|r' now|now]; simpl.
  - rewrite request_resource_ok. intros [= <-]. simpl.
    rewrite od_set_visited. split.
    + intros [->|H]; [right; now exists now | now left].
    + intros [H|[now' [= -> _]]]; [now right | now left].
  - intro H. apply update_visit_inv in H. destruct H as [v [Hv ->]]. simpl.
    rewrite od_set_visited. split.
    + intros [<-|H]; left; congruence.
    + intros [H|[now' H]]; [now right | discriminate].
  - intro H. apply update_visit_inv in H. destruct H as [v [Hv ->]]. simpl.
    rewrite od_set_visited. split.
    + intros [<-|H]; left; congruence.
    + intros [H|[now' H]]; [now right | discriminate].
  - intros [= <-]. simpl. split; [now left|].
    intros [H|[now' H]]; [exact H | discriminate].
Qed.

Lemma run_visited (cs : list call) (r : string) : forall e e' : t,
  run cs e = Ok e' ->
  (od_get (resources_requested e') r <> None <->
   od_get (resources_requested e) r <> None \/ exists now, In (Request r now) cs).
Proof.
  induction cs as [|c cs IH]; intros e e'; simpl.
  - intros [= <-]. split; [now left|]. intros [H|[now []]]. exact H.
  - destruct (run_call c e) as [e1|] eqn:E; simpl; [|discriminate].
    intro H. rewrite (IH _ _ H), (run_call_visited c e e1 r E). split.
    + intros [[H1|[now ->]]|[now H1]].
      * now left.
      * right. exists now. now left.
      * right. exists now. now right.
    + intros [H1|[now [->|H1]]].
      * left. now left.
      * left. right. now exists now.
      * right. now exists now.
Qed.

Lemma resource_getters_by_key (r : string) (e : t) :
  match od_get (resources_requested e) r with
  | Some v =>
      get_waiting_time_for_resource r e
        = Ok (start_service_time v - arrival_time v) /\
      get_processing_time_for_resource r e
        = Ok (finish_service_time v - start_service_time v)
  | None =>
      get_waiting_time_for_resource r e = Err (KeyError r) /\
      get_processing_time_for_resource r e = Err (KeyError r)
  end.
Proof.
  unfold get_waiting_time_for_resource, get_processing_time_for_resource,
    _calculate_waiting_time_for_resource,
    _calculate_processing_time_for_resource, od_getitem.
  destruct (od_get (resources_requested e) r); simpl; split; reflexivity.
Qed.

End Visited.

(** ** Aggregate statistics of a disposed entity *)

Example customer_run :
  Entity.run Scenario.customer_calls Scenario.customer = Ok Scenario.served_customer.
Proof. reflexivity. Qed.

Example customer_statistics :
  Entity.returned (Entity.get_total_time Scenario.served_customer) = Ok 5 /\
  Entity.returned (Entity.get_total_waiting_time Scenario.served_customer) = Ok 2 /\
  Entity.returned (Entity.get_total_processing_time Scenario.served_customer) = Ok 3.
Proof. repeat split. Qed.

(** On a disposed entity that has its creation stamp, the total time is
    the disposal stamp minus the creation stamp, the total waiting time is
    the sum over the visited resources of start of service minus arrival,
    and the total processing time is the sum over the visited resources of
    end of service minus start of service. *)
Theorem disposed_entity_statistics (e : Entity.t) (c d : Q) :
  Entity.wf e ->
  Entity.creation_time e = Some c ->
  Entity.disposal_time e = Some d ->
  exists w p : Q,
    Entity.returned (Entity.get_total_time e) = Ok (d - c) /\
    Entity.returned (Entity.get_total_waiting_time e) = Ok w /\
    w == Entity.sum_over Entity.waiting_of (Entity.resources_requested e) /\
    Entity.returned (Entity.get_total_processing_time e) = Ok p /\
    p == Entity.sum_over Entity.processing_of (Entity.resources_requested e).
Proof.
  intros Hwf Hc Hd.
  destruct (getters_ok e c d Hwf Hc Hd) as [Ht [Hw Hp]].
  exists (Entity.accumulate Entity.waiting_of (Entity.resources_requested e) 0),
         (Entity.accumulate Entity.processing_of (Entity.resources_requested e) 0).
  rewrite Ht, Hw, Hp. simpl.
  repeat split; rewrite accumulate_sum; ring.
Qed.

Lemma disposed_entity_statistics_witness :
  Entity.wf Scenario.served_customer /\
  Entity.creation_time Scenario.served_customer = Some 0 /\
  Entity.disposal_time Scenario.served_customer = Some 5 /\
  exists w p : Q,
    Entity.returned (Entity.get_total_time Scenario.served_customer) = Ok (5 - 0) /\
    Entity.returned (Entity.get_total_waiting_time Scenario.served_customer) = Ok w /\
    w == Entity.sum_over Entity.waiting_of
           (Entity.resources_requested Scenario.served_customer) /\
    Entity.returned (Entity.get_total_processing_time Scenario.served_customer) = Ok p /\
    p == Entity.sum_over Entity.processing_of
           (Entity.resources_requested Scenario.served_customer).
Proof.
  assert (Hwf : Entity.wf Scenario.served_customer).
  { unfold Entity.wf. simpl. repeat constructor. simpl. tauto. }
  split; [exact Hwf|]. split; [reflexivity|]. split; [reflexivity|].
  exact (disposed_entity_statistics Scenario.served_customer 0 5 Hwf eq_refl eq_refl).
Defined.

Example hand_built_run :
  exists e1 e2 e3 : NamedEntity.t,
    NamedEntity.request_resource 0 "A" MoreScenarios.hand_built = Ok e1 /\
    NamedEntity.start_service_at_resource 2 "A" e1 = Ok e2 /\
    NamedEntity.release_resource 5 "A" e2 = Ok e3 /\
    NamedEntity.dispose 5 e3 = (MoreScenarios.hand_built_served, Ok 5).
Proof. do 3 eexists. repeat split; reflexivity. Qed.

(** C3 does not hold of every disposed entity.  An entity a model builds
    itself (named, but never stamped with a creation time by a [Source])
    that waits 2 and is served for 3 at A and is then disposed has sums over
    its visit of 2 and 3, yet [get_total_waiting_time] and
    [get_total_processing_time] raise [TypeError] like [get_total_time]:
    [_calculate_statistics] subtracts the missing creation stamp before it
    stores the two sums. *)
Lemma sums_lost_without_creation_stamp :
  Entity.is_disposed (NamedEntity.state MoreScenarios.hand_built_served) = true /\
  Entity.creation_time (NamedEntity.state MoreScenarios.hand_built_served) = None /\
  Entity.sum_over Entity.waiting_of
    (Entity.resources_requested (NamedEntity.state MoreScenarios.hand_built_served))
    == 2 /\
  Entity.sum_over Entity.processing_of
    (Entity.resources_requested (NamedEntity.state MoreScenarios.hand_built_served))
    == 3 /\
  NamedEntity.get_total_waiting_time MoreScenarios.hand_built_served = Err TypeError /\
  NamedEntity.get_total_processing_time MoreScenarios.hand_built_served
    = Err TypeError /\
  NamedEntity.get_total_time MoreScenarios.hand_built_served = Err TypeError.
Proof. repeat split. Qed.

(** On an entity whose disposal stamp is unset each of the three getters
    raises its "has not been disposed" exception; on an entity whose
    disposal stamp and creation stamp are both set each of them returns a
    value. *)
Theorem getters_disposal_gate (e : Entity.t) :
  (Entity.disposal_time e = None ->
     Entity.get_total_time e = Err (Exception Entity.total_time_msg) /\
     Entity.get_total_waiting_time e = Err (Exception Entity.waiting_time_msg) /\
     Entity.get_total_processing_time e = Err (Exception Entity.processing_time_msg)) /\
  (Entity.wf e ->
   Entity.disposal_time e <> None ->
   Entity.creation_time e <> None ->
     exists (total waiting processing : Q) (e' : Entity.t),
       Entity.get_total_time e = Ok (total, e') /\
       Entity.get_total_waiting_time e = Ok (waiting, e') /\
       Entity.get_total_processing_time e = Ok (processing, e')).
Proof.
  split; [apply getters_not_disposed|].
  intros Hwf Hd Hc.
  destruct (Entity.disposal_time e) as [d|] eqn:Ed; [|congruence].
  destruct (Entity.creation_time e) as [c|] eqn:Ec; [|congruence].
  destruct (getters_ok e c d Hwf Ec Ed) as [Ht [Hw Hp]].
  eauto 10.
Qed.

Lemma getters_disposal_gate_witness :
  (Entity.disposal_time Scenario.customer_in_service = None /\
   Entity.get_total_time Scenario.customer_in_service
     = Err (Exception Entity.total_time_msg)) /\
  (Entity.wf Scenario.served_customer /\
   Entity.disposal_time Scenario.served_customer <> None /\
   Entity.creation_time Scenario.served_customer <> None /\
   exists (total waiting processing : Q) (e' : Entity.t),
     Entity.get_total_time Scenario.served_customer = Ok (total, e') /\
     Entity.get_total_waiting_time Scenario.served_customer = Ok (waiting, e') /\
     Entity.get_total_processing_time Scenario.served_customer = Ok (processing, e')).
Proof.
  split.
  - split; [reflexivity|].
    exact (proj1 (proj1 (getters_disposal_gate Scenario.customer_in_service) eq_refl)).
  - assert (Hwf : Entity.wf Scenario.served_customer).
    { unfold Entity.wf. simpl. repeat constructor. simpl. tauto. }
    assert (Hd : Entity.disposal_time Scenario.served_customer <> None)
      by (simpl; discriminate).
    assert (Hc : Entity.creation_time Scenario.served_customer <> None)
      by (simpl; discriminate).
    split; [exact Hwf|]. split; [exact Hd|]. split; [exact Hc|].
    exact (proj2 (getters_disposal_gate Scenario.served_customer) Hwf Hd Hc).
Defined.

(** C4 does not hold of every entity whose disposal stamp is set.  An
    entity built from a subclass that defines [name], constructed and
    disposed at 5 without having been yielded by a [Source], has its
    disposal stamp set, and each of the three getters raises [TypeError]
    instead of returning a value.  Without a [name] the print of [dispose]
    raises [AttributeError], after the stamp has been assigned, and the
    getters raise [TypeError] on that entity as well. *)
Lemma disposed_getters_raise_type_error :
  (exists e : NamedEntity.t,
     NamedEntity.dispose 5 MoreScenarios.hand_built = (e, Ok 5) /\
     Entity.disposal_time (NamedEntity.state e) = Some 5 /\
     Entity.is_disposed (NamedEntity.state e) = true /\
     NamedEntity.get_total_time e = Err TypeError /\
     NamedEntity.get_total_waiting_time e = Err TypeError /\
     NamedEntity.get_total_processing_time e = Err TypeError) /\
  (exists e : NamedEntity.t,
     NamedEntity.dispose 5 (NamedEntity.init None) = (e, Err (AttributeError "name")) /\
     Entity.disposal_time (NamedEntity.state e) = Some 5 /\
     NamedEntity.get_total_time e = Err TypeError /\
     NamedEntity.get_total_waiting_time e = Err TypeError /\
     NamedEntity.get_total_processing_time e = Err TypeError).
Proof. split; eexists; repeat split; reflexivity. Qed.

(** ** Recomputation of the statistics *)

(** C5, as the code has it: every getter call recomputes the statistics
    from the creation stamp, the disposal stamp and the visit records the
    entity has at the time of the call, whatever statistics an earlier call
    stored; a getter call changes none of these three inputs, so a second
    call with nothing modified in between returns what the first returned. *)
Theorem getters_recompute (e e' : Entity.t) :
  (Entity.same_inputs e e' ->
     Entity.get_total_time e = Entity.get_total_time e' /\
     Entity.get_total_waiting_time e = Entity.get_total_waiting_time e' /\
     Entity.get_total_processing_time e = Entity.get_total_processing_time e') /\
  (forall v : Q,
     Entity.get_total_time e = Ok (v, e') \/
     Entity.get_total_waiting_time e = Ok (v, e') \/
     Entity.get_total_processing_time e = Ok (v, e') ->
     Entity.returned (Entity.get_total_time e')
       = Entity.returned (Entity.get_total_time e) /\
     Entity.returned (Entity.get_total_waiting_time e')
       = Entity.returned (Entity.get_total_waiting_time e) /\
     Entity.returned (Entity.get_total_processing_time e')
       = Entity.returned (Entity.get_total_processing_time e)).
Proof.
  split; [apply getters_same_inputs|].
  intros v H. apply getter_keeps_inputs in H.
  destruct (getters_same_inputs e e' H) as [-> [-> ->]]. tauto.
Qed.

Lemma getters_recompute_witness :
  Entity.get_total_waiting_time Scenario.served_customer
    = Ok (0 + (2 - 0), Entity.with_statistics 0 5 Scenario.served_customer) /\
  Entity.returned
    (Entity.get_total_processing_time
       (Entity.with_statistics 0 5 Scenario.served_customer))
  = Entity.returned (Entity.get_total_processing_time Scenario.served_customer).
Proof.
  assert (H : Entity.get_total_waiting_time Scenario.served_customer
              = Ok (0 + (2 - 0), Entity.with_statistics 0 5 Scenario.served_customer))
    by reflexivity.
  split; [exact H|].
  exact (proj2 (proj2
    (proj2 (getters_recompute Scenario.served_customer
              (Entity.with_statistics 0 5 Scenario.served_customer))
       (0 + (2 - 0)) (or_intror (or_introl H))))).
Defined.

(** C5, as stated, fails: after a first getter call has stored the
    statistics, a later call returns values computed from the modified
    disposal stamp and from the modified visit record, not the stored ones. *)
Lemma statistics_not_cached :
  exists e1 e2 e3 : Entity.t,
    Entity.get_total_time Scenario.served_customer = Ok (5, e1) /\
    Entity.total_time e1 = Some 5 /\
    Entity.waiting_time e1 = Some 2 /\
    snd (Entity.dispose 7 e1) = e2 /\
    Entity.total_time e2 = Some 5 /\
    Entity.returned (Entity.get_total_time e2) = Ok 7 /\
    Entity.start_service_at_resource 4 "A" e1 = Ok e3 /\
    Entity.waiting_time e3 = Some 2 /\
    Entity.returned (Entity.get_total_waiting_time e3) = Ok 4 /\
    ~ 7 == 5 /\ ~ 4 == 2.
Proof.
  eexists; eexists; eexists.
  split; [reflexivity|]. split; [reflexivity|]. split; [reflexivity|].
  split; [reflexivity|]. split; [reflexivity|]. split; [reflexivity|].
  split; [reflexivity|]. split; [reflexivity|]. split; [reflexivity|].
  split; intro H; discriminate H.
Qed.

(** ** Disposal *)

(** C6, as the code has it: [dispose] stamps the disposal time with the
    current time on every call, whatever was stamped before (the last call
    wins); a fresh entity has no disposal stamp; no other call and no getter
    changes the stamp; and [is_disposed] holds exactly when the stamp is
    set. *)
Theorem dispose_last_write_wins (now : Q) (e : Entity.t) :
  fst (Entity.dispose now e) = now /\
  Entity.disposal_time (snd (Entity.dispose now e)) = Some now /\
  Entity.disposal_time Entity.init = None /\
  (Entity.is_disposed e = true <-> Entity.disposal_time e <> None) /\
  (forall (c : Entity.call) (e' : Entity.t),
     (forall t, c <> Entity.Dispose t) ->
     Entity.run_call c e = Ok e' ->
     Entity.disposal_time e' = Entity.disposal_time e) /\
  (forall (v : Q) (e' : Entity.t),
     Entity.get_total_time e = Ok (v, e') \/
     Entity.get_total_waiting_time e = Ok (v, e') \/
     Entity.get_total_processing_time e = Ok (v, e') ->
     Entity.disposal_time e' = Entity.disposal_time e).
Proof.
  split; [reflexivity|]. split; [reflexivity|]. split; [reflexivity|].
  split; [|split].
  - unfold Entity.is_disposed. destruct (Entity.disposal_time e);
      split; congruence.
  - intros c e' Hc H. apply run_call_keeps in H. now apply H.
  - intros v e' H. apply getter_keeps_inputs in H.
    destruct H as [_ [H _]]. now symmetry.
Qed.

Lemma dispose_last_write_wins_witness :
  Entity.disposal_time (snd (Entity.dispose 7 Scenario.served_customer)) = Some 7 /\
  (forall t, Entity.Release "A" 6 <> Entity.Dispose t) /\
  Entity.run_call (Entity.Release "A" 6) Scenario.served_customer
    = Ok (Entity.set_resources_requested [("A"%string, Entity.mk_visit 0 2 6)]
            Scenario.served_customer) /\
  Entity.disposal_time
    (Entity.set_resources_requested [("A"%string, Entity.mk_visit 0 2 6)]
       Scenario.served_customer)
  = Entity.disposal_time Scenario.served_customer.
Proof.
  pose proof (dispose_last_write_wins 7 Scenario.served_customer)
    as [_ [Hstamp [_ [_ [Hcall _]]]]].
  assert (H1 : forall t, Entity.Release "A" 6 <> Entity.Dispose t)
    by (intros t; discriminate).
  assert (H2 : Entity.run_call (Entity.Release "A" 6) Scenario.served_customer
               = Ok (Entity.set_resources_requested
                       [("A"%string, Entity.mk_visit 0 2 6)]
                       Scenario.served_customer)) by reflexivity.
  split; [exact Hstamp|]. split; [exact H1|]. split; [exact H2|].
  exact (Hcall _ _ H1 H2).
Defined.

(** C6, as stated, fails: a second [dispose] overwrites the stamp of the
    first. *)
Lemma second_dispose_overwrites :
  Entity.disposal_time (snd (Entity.dispose 5 Scenario.customer)) = Some 5 /\
  Entity.disposal_time
    (snd (Entity.dispose 7 (snd (Entity.dispose 5 Scenario.customer)))) = Some 7 /\
  ~ 7 == 5.
Proof. split; [reflexivity|]. split; [reflexivity|]. intro H; discriminate H. Qed.

(** ** Visiting a resource again *)

Example second_visit_run :
  Entity.run [Entity.Request "A" 8; Entity.StartService "A" 11; Entity.Release "A" 12]
    Scenario.after_first_round
  = Ok Scenario.after_second_visit.
Proof. reflexivity. Qed.

(** C8: when an entity that already has a visit record for a resource
    requests it again, the record is reset and stamped with the new
    arrival; after the service start and the release of the second visit
    the record holds the three stamps of the second visit, the entity still
    has one record per resource, and the aggregate waiting and processing
    times are those of the other resources plus those of the second visit
    alone. *)
Theorem revisit_overwrites_record
    (e : Entity.t) (r : string) (old : Entity.visit) (c arrival start finish : Q) :
  Entity.wf e ->
  Entity.creation_time e = Some c ->
  Entity.od_get (Entity.resources_requested e) r = Some old ->
  exists e1 e2 e3 : Entity.t,
    Entity.request_resource arrival r e = Ok e1 /\
    Entity.od_get (Entity.resources_requested e1) r
      = Some (Entity.mk_visit arrival 0 0) /\
    Entity.start_service_at_resource start r e1 = Ok e2 /\
    Entity.release_resource finish r e2 = Ok e3 /\
    Entity.od_get (Entity.resources_requested e3) r
      = Some (Entity.mk_visit arrival start finish) /\
    map fst (Entity.resources_requested e3) = map fst (Entity.resources_requested e) /\
    Entity.others r (Entity.resources_requested e3)
      = Entity.others r (Entity.resources_requested e) /\
    forall d : Q, exists w p : Q,
      Entity.returned (Entity.get_total_waiting_time (snd (Entity.dispose d e3))) = Ok w /\
      w == Entity.sum_over Entity.waiting_of
             (Entity.others r (Entity.resources_requested e)) + (start - arrival) /\
      Entity.returned (Entity.get_total_processing_time (snd (Entity.dispose d e3))) = Ok p /\
      p == Entity.sum_over Entity.processing_of
             (Entity.others r (Entity.resources_requested e)) + (finish - start).
Proof.
  intros Hwf Hc Hold.
  set (d0 := Entity.resources_requested e).
  set (e1 := Entity.set_resources_requested
               (Entity.od_set d0 r (Entity.mk_visit arrival 0 0)) e).
  set (e2 := Entity.set_resources_requested
               (Entity.od_set d0 r (Entity.mk_visit arrival start 0)) e).
  set (e3 := Entity.set_resources_requested
               (Entity.od_set d0 r (Entity.mk_visit arrival start finish)) e).
  exists e1, e2, e3.
  split; [apply request_resource_ok|].
  split; [apply od_get_set_same|].
  split.
  { unfold Entity.start_service_at_resource.
    rewrite (update_visit_ok _ _ _ (Entity.mk_visit arrival 0 0))
      by apply od_get_set_same.
    unfold e1, e2. simpl. now rewrite od_set_set. }
  split.
  { unfold Entity.release_resource.
    rewrite (update_visit_ok _ _ _ (Entity.mk_visit arrival start 0))
      by apply od_get_set_same.
    unfold e2, e3. simpl. now rewrite od_set_set. }
  split; [apply od_get_set_same|].
  split.
  { unfold e3. simpl. rewrite od_set_keys. fold d0 in Hold. now rewrite Hold. }
  split; [apply others_set|].
  intro d.
  assert (Hwf3 : Entity.wf (snd (Entity.dispose d e3))).
  { unfold Entity.wf. simpl. now apply od_set_nodup. }
  destruct (getters_ok (snd (Entity.dispose d e3)) c d Hwf3 Hc eq_refl)
    as [_ [Hw Hp]].
  rewrite Hw, Hp. simpl. do 2 eexists.
  split; [reflexivity|]. split; [|split; [reflexivity|]].
  - rewrite accumulate_sum.
    rewrite (sum_over_split _ _ r (Entity.mk_visit arrival start finish));
      [|now apply od_set_nodup | apply od_get_set_same].
    rewrite others_set. unfold Entity.waiting_of at 2. simpl. ring.
  - rewrite accumulate_sum.
    rewrite (sum_over_split _ _ r (Entity.mk_visit arrival start finish));
      [|now apply od_set_nodup | apply od_get_set_same].
    rewrite others_set. unfold Entity.processing_of at 2. simpl. ring.
Qed.

Lemma revisit_overwrites_record_witness :
  Entity.wf Scenario.after_first_round /\
  Entity.creation_time Scenario.after_first_round = Some 0 /\
  Entity.od_get (Entity.resources_requested Scenario.after_first_round) "A"
    = Some (Entity.mk_visit 0 2 5) /\
  exists e1 e2 e3 : Entity.t,
    Entity.request_resource 8 "A" Scenario.after_first_round = Ok e1 /\
    Entity.od_get (Entity.resources_requested e1) "A" = Some (Entity.mk_visit 8 0 0) /\
    Entity.start_service_at_resource 11 "A" e1 = Ok e2 /\
    Entity.release_resource 12 "A" e2 = Ok e3 /\
    Entity.od_get (Entity.resources_requested e3) "A" = Some (Entity.mk_visit 8 11 12) /\
    map fst (Entity.resources_requested e3)
      = map fst (Entity.resources_requested Scenario.after_first_round) /\
    Entity.others "A" (Entity.resources_requested e3)
      = Entity.others "A" (Entity.resources_requested Scenario.after_first_round) /\
    forall d : Q, exists w p : Q,
      Entity.returned (Entity.get_total_waiting_time (snd (Entity.dispose d e3))) = Ok w /\
      w == Entity.sum_over Entity.waiting_of
             (Entity.others "A" (Entity.resources_requested Scenario.after_first_round))
           + (11 - 8) /\
      Entity.returned (Entity.get_total_processing_time (snd (Entity.dispose d e3))) = Ok p /\
      p == Entity.sum_over Entity.processing_of
             (Entity.others "A" (Entity.resources_requested Scenario.after_first_round))
           + (12 - 11).
Proof.
  assert (Hwf : Entity.wf Scenario.after_first_round).
  { unfold Entity.wf. simpl. repeat constructor; simpl; intuition discriminate. }
  split; [exact Hwf|]. split; [reflexivity|]. split; [reflexivity|].
  exact (revisit_overwrites_record Scenario.after_first_round "A"
           (Entity.mk_visit 0 2 5) 0 8 11 12 Hwf eq_refl eq_refl).
Defined.

Example second_visit_statistics :
  Entity.returned
    (Entity.get_total_waiting_time (snd (Entity.dispose 12 Scenario.after_second_visit)))
    = Ok 4 /\
  Entity.returned
    (Entity.get_total_processing_time (snd (Entity.dispose 12 Scenario.after_second_visit)))
    = Ok 3.
Proof. split; reflexivity. Qed.

(** ** Per-resource getters *)

(** C10: on an entity reached from a fresh one by a sequence of calls,
    [get_waiting_time_for_resource] and [get_processing_time_for_resource]
    raise [KeyError] exactly when no call of the sequence requested the
    named resource; when one did, they return the differences of the
    stamps recorded for it, and no disposal is required for that. *)
Theorem resource_getters_key_error
    (cs : list Entity.call) (fresh e : Entity.t) (r : string) :
  Entity.resources_requested fresh = [] ->
  Entity.run cs fresh = Ok e ->
  (Entity.get_waiting_time_for_resource r e = Err (KeyError r) <->
   ~ exists now, In (Entity.Request r now) cs) /\
  (Entity.get_processing_time_for_resource r e = Err (KeyError r) <->
   ~ exists now, In (Entity.Request r now) cs) /\
  ((exists now, In (Entity.Request r now) cs) ->
   exists v : Entity.visit,
     Entity.od_get (Entity.resources_requested e) r = Some v /\
     Entity.get_waiting_time_for_resource r e
       = Ok (Entity.start_service_time v - Entity.arrival_time v) /\
     Entity.get_processing_time_for_resource r e
       = Ok (Entity.finish_service_time v - Entity.start_service_time v)).
Proof.
  intros Hfresh Hrun.
  pose proof (run_visited cs r fresh e Hrun) as Hvis.
  rewrite Hfresh in Hvis. simpl in Hvis.
  pose proof (resource_getters_by_key r e) as Hget.
  destruct (Entity.od_get (Entity.resources_requested e) r) as [v|].
  - assert (Hreq : exists now, In (Entity.Request r now) cs).
    { destruct (proj1 Hvis) as [H|H]; [discriminate | congruence | exact H]. }
    destruct Hget as [Hw Hp]. rewrite Hw, Hp.
    split; [split; [discriminate | tauto]|].
    split; [split; [discriminate | tauto]|].
    intros _. now exists v.
  - assert (Hnone : ~ exists now, In (Entity.Request r now) cs).
    { intro H. apply (proj2 Hvis); [now right | reflexivity]. }
    destruct Hget as [Hw Hp]. rewrite Hw, Hp.
    split; [tauto|]. split; [tauto|]. intro H. now destruct Hnone.
Qed.

Lemma resource_getters_key_error_witness :
  Entity.resources_requested Scenario.customer = [] /\
  Entity.run [Entity.Request "A" 0; Entity.StartService "A" 2] Scenario.customer
    = Ok Scenario.customer_in_service /\
  Entity.is_disposed Scenario.customer_in_service = false /\
  Entity.get_waiting_time_for_resource "A" Scenario.customer_in_service = Ok (2 - 0) /\
  (Entity.get_waiting_time_for_resource "B" Scenario.customer_in_service
     = Err (KeyError "B") <->
   ~ exists now,
       In (Entity.Request "B" now) [Entity.Request "A" 0; Entity.StartService "A" 2]) /\
  exists v : Entity.visit,
    Entity.od_get (Entity.resources_requested Scenario.customer_in_service) "A" = Some v /\
    Entity.get_waiting_time_for_resource "A" Scenario.customer_in_service
      = Ok (Entity.start_service_time v - Entity.arrival_time v) /\
    Entity.get_processing_time_for_resource "A" Scenario.customer_in_service
      = Ok (Entity.finish_service_time v - Entity.start_service_time v).
Proof.
  assert (H1 : Entity.resources_requested Scenario.customer = []) by reflexivity.
  assert (H2 : Entity.run [Entity.Request "A" 0; Entity.StartService "A" 2]
                 Scenario.customer = Ok Scenario.customer_in_service) by reflexivity.
  split; [exact H1|]. split; [exact H2|]. split; [reflexivity|]. split; [reflexivity|].
  split.
  - exact (proj1 (resource_getters_key_error _ _ _ "B" H1 H2)).
  - apply (proj2 (proj2 (resource_getters_key_error _ _ _ "A" H1 H2))).
    exists 0. simpl. now left.
Defined.

(** ** Source *)

Section SourceInvariant.
Import Source.

Lemma inv_init (fc : option Q) (n : option nat) : inv (init fc n).
Proof. constructor. Qed.

(** Every entity [next_entity] appends has been stamped. *)
Lemma inv_next_entity (now time : Q) (built : Entity.t) (self : t) :
  Entity.wf built -> inv self ->
  inv (fst (next_entity_iter now time built self)).
Proof.
  intros Hwf Hinv. unfold next_entity_iter.
  destruct (reached_number _); simpl; [exact Hinv|].
  unfold inv. simpl. apply Forall_app. split; [exact Hinv|].
  constructor; [|constructor]. split; [exact Hwf | discriminate].
Qed.

Lemma replace_nth_Forall (P : Entity.t -> Prop) (e : Entity.t) (es : list Entity.t) :
  forall i : nat, P e -> Forall P es -> Forall P (replace_nth i e es).
Proof.
  induction es as [|x es IH]; intros i He Hes; [destruct i; constructor|].
  apply Forall_cons_iff in Hes. destruct Hes as [Hx Hes].
  destruct i; simpl; constructor; auto.
Qed.

Lemma inv_call_entity (i : nat) (c : Entity.call) (self self' : t) :
  inv self -> call_entity i c self = Ok self' -> inv self'.
Proof.
  intros Hinv. unfold call_entity.
  destruct (nth_error (entities self) i) as [e|] eqn:E; [|now intros [= <-]].
  destruct (Entity.run_call c e) as [e'|] eqn:Ec; simpl; [|discriminate].
  intros [= <-]. unfold inv. simpl.
  apply replace_nth_Forall; [|exact Hinv].
  apply nth_error_In in E.
  destruct (proj1 (Forall_forall _ _) Hinv e E) as [Hwf Hc].
  destruct (run_call_keeps c e e' Ec) as [Hc' [Hwf' _]].
  split; [tauto | congruence].
Qed.

Lemma inv_run_calls (cs : list (nat * Entity.call)) : forall self self' : t,
  inv self -> run_calls cs self = Ok self' -> inv self'.
Proof.
  induction cs as [|[i c] cs IH]; intros self self' Hinv; simpl.
  - now intros [= <-].
  - destruct (call_entity i c self) as [s1|] eqn:E; simpl; [|discriminate].
    apply IH. exact (inv_call_entity i c self s1 Hinv E).
Qed.

Lemma comprehension_ok (getter : Entity.t -> result (Q * Entity.t))
    (es : list Entity.t) :
  Forall (fun e => exists v e', getter e = Ok (v, e')) es ->
  exists l : list Q,
    comprehension getter es = Ok l /\
    Forall2 (fun e v => Entity.returned (getter e) = Ok v) es l.
Proof.
  induction es as [|e es IH]; intro H.
  - exists []. split; [reflexivity | constructor].
  - apply Forall_cons_iff in H. destruct H as [[v [e' Hg]] Hes].
    destruct (IH Hes) as [l [Hl Hall]].
    exists (v :: l). simpl. rewrite Hg, Hl. simpl. split; [reflexivity|].
    constructor; [|exact Hall]. unfold Entity.returned. now rewrite Hg.
Qed.

Lemma disposed_getters_ok (self : t) :
  inv self ->
  Forall (fun e =>
            exists c d : Q,
              Entity.creation_time e = Some c /\ Entity.disposal_time e = Some d /\
              Entity.wf e)
         (_get_disposed_entities self).
Proof.
  intro Hinv. apply Forall_forall. intros e He.
  unfold _get_disposed_entities in He. apply filter_In in He.
  destruct He as [Hin Hd].
  destruct (proj1 (Forall_forall _ _) Hinv e Hin) as [Hwf Hc].
  unfold Entity.is_disposed in Hd.
  destruct (Entity.disposal_time e) as [d|]; [|discriminate].
  destruct (Entity.creation_time e) as [c|]; [|congruence].
  now exists c, d.
Qed.

Lemma total_times_values (es : list Entity.t) (totals : list Q) :
  Forall (fun e =>
            exists c d : Q,
              Entity.creation_time e = Some c /\ Entity.disposal_time e = Some d /\
              Entity.wf e) es ->
  Forall2 (fun e v => Entity.returned (Entity.get_total_time e) = Ok v) es totals ->
  Forall2 (fun e v =>
             exists c d : Q,
               Entity.creation_time e = Some c /\
               Entity.disposal_time e = Some d /\ v = d - c) es totals.
Proof.
  intros Hd Ft. induction Ft as [|e v es' l Hev Ft IH]; [constructor|].
  apply Forall_cons_iff in Hd. destruct Hd as [[c [d [Hc [Hdd Hwf]]]] Hd].
  constructor; [|now apply IH].
  exists c, d. split; [exact Hc|]. split; [exact Hdd|].
  destruct (getters_ok e c d Hwf Hc Hdd) as [H _].
  rewrite H in Hev. simpl in Hev. congruence.
Qed.

End SourceInvariant.

Example busy_source_run :
  Source.run_calls Scenario.three_calls Scenario.three_spawned = Ok Scenario.busy_source.
Proof. reflexivity. Qed.

Example busy_source_times :
  Source.get_total_times Scenario.busy_source = Ok [3; 2] /\
  Source.get_waiting_times Scenario.busy_source = Ok [0; 1] /\
  Source.get_processing_times Scenario.busy_source = Ok [3; 1].
Proof. repeat split. Qed.

(** C9: on a source whose entities were appended by [next_entity],
    [get_total_times], [get_waiting_times] and [get_processing_times] return
    without raising; each result has as many entries as the list of entities
    has entities with a disposal stamp; the entries are, in the order of the
    list, the values the corresponding getter returns on those entities (for
    the total time: disposal stamp minus creation stamp); entities without a
    disposal stamp contribute nothing. *)
Theorem source_times_of_disposed (s : Source.t) :
  Source.inv s ->
  exists totals waitings processings : list Q,
    Source.get_total_times s = Ok totals /\
    Source.get_waiting_times s = Ok waitings /\
    Source.get_processing_times s = Ok processings /\
    List.length totals
      = List.length (filter Entity.is_disposed (Source.entities s)) /\
    List.length waitings
      = List.length (filter Entity.is_disposed (Source.entities s)) /\
    List.length processings
      = List.length (filter Entity.is_disposed (Source.entities s)) /\
    Forall2 (fun e v =>
               exists c d : Q,
                 Entity.creation_time e = Some c /\
                 Entity.disposal_time e = Some d /\ v = d - c)
            (filter Entity.is_disposed (Source.entities s)) totals /\
    Forall2 (fun e v => Entity.returned (Entity.get_total_waiting_time e) = Ok v)
            (filter Entity.is_disposed (Source.entities s)) waitings /\
    Forall2 (fun e v => Entity.returned (Entity.get_total_processing_time e) = Ok v)
            (filter Entity.is_disposed (Source.entities s)) processings.
Proof.
  intro Hinv. pose proof (disposed_getters_ok s Hinv) as Hd.
  unfold Source.get_total_times, Source.get_waiting_times,
    Source.get_processing_times.
  unfold Source._get_disposed_entities in *.
  set (es := filter Entity.is_disposed (Source.entities s)) in *.
  destruct (comprehension_ok Entity.get_total_time es) as [totals [Ht Ft]].
  { eapply Forall_impl; [|exact Hd]. intros e [c [d [Hc [Hdd Hwf]]]].
    destruct (getters_ok e c d Hwf Hc Hdd) as [H _]. eauto. }
  destruct (comprehension_ok Entity.get_total_waiting_time es) as [waitings [Hw Fw]].
  { eapply Forall_impl; [|exact Hd]. intros e [c [d [Hc [Hdd Hwf]]]].
    destruct (getters_ok e c d Hwf Hc Hdd) as [_ [H _]]. eauto. }
  destruct (comprehension_ok Entity.get_total_processing_time es)
    as [processings [Hp Fp]].
  { eapply Forall_impl; [|exact Hd]. intros e [c [d [Hc [Hdd Hwf]]]].
    destruct (getters_ok e c d Hwf Hc Hdd) as [_ [_ H]]. eauto. }
  exists totals, waitings, processings.
  split; [exact Ht|]. split; [exact Hw|]. split; [exact Hp|].
  split; [symmetry; exact (Forall2_length Ft)|].
  split; [symmetry; exact (Forall2_length Fw)|].
  split; [symmetry; exact (Forall2_length Fp)|].
  split; [|split; assumption].
  exact (total_times_values es totals Hd Ft).
Qed.

Lemma source_times_of_disposed_witness :
  Source.inv Scenario.busy_source /\
  List.length (filter Entity.is_disposed (Source.entities Scenario.busy_source)) = 2%nat /\
  exists totals waitings processings : list Q,
    Source.get_total_times Scenario.busy_source = Ok totals /\
    Source.get_waiting_times Scenario.busy_source = Ok waitings /\
    Source.get_processing_times Scenario.busy_source = Ok processings /\
    List.length totals
      = List.length (filter Entity.is_disposed (Source.entities Scenario.busy_source)) /\
    List.length waitings
      = List.length (filter Entity.is_disposed (Source.entities Scenario.busy_source)) /\
    List.length processings
      = List.length (filter Entity.is_disposed (Source.entities Scenario.busy_source)) /\
    Forall2 (fun e v =>
               exists c d : Q,
                 Entity.creation_time e = Some c /\
                 Entity.disposal_time e = Some d /\ v = d - c)
            (filter Entity.is_disposed (Source.entities Scenario.busy_source)) totals /\
    Forall2 (fun e v => Entity.returned (Entity.get_total_waiting_time e) = Ok v)
            (filter Entity.is_disposed (Source.entities Scenario.busy_source)) waitings /\
    Forall2 (fun e v => Entity.returned (Entity.get_total_processing_time e) = Ok v)
            (filter Entity.is_disposed (Source.entities Scenario.busy_source)) processings.
Proof.
  assert (Hinv : Source.inv Scenario.busy_source).
  { unfold Source.inv, Entity.wf. simpl.
    repeat constructor; simpl; try tauto; discriminate. }
  split; [exact Hinv|]. split; [reflexivity|].
  exact (source_times_of_disposed Scenario.busy_source Hinv).
Defined.

(** ** Further properties of the queue-length series *)

Section SeriesFacts.
Import ResourceStatsMixin.

Lemma firstn_seq_le (n m : nat) : (n <= m)%nat -> firstn n (seq 0 m) = seq 0 n.
Proof.
  intro H. replace m with (n + (m - n))%nat by lia.
  rewrite seq_app, firstn_app, length_seq, Nat.sub_diag. simpl.
  rewrite app_nil_r. apply firstn_all2. rewrite length_seq. lia.
Qed.

Lemma py_int_mono (x y : Q) :
  x <= y -> (Z.to_nat (py_int x) <= Z.to_nat (py_int y))%nat.
Proof.
  intro H. rewrite !py_int_floor. apply Qfloor_resp_le in H. lia.
Qed.

(** The value at a tick reads the log only at ticks up to it. *)
Lemma value_at_ext_upto (qs qs' : list event) (i : nat) :
  (forall k, (k <= i)%nat -> sizes_at (tick_key k) qs = sizes_at (tick_key k) qs') ->
  value_at qs i = value_at qs' i.
Proof.
  induction i as [|i IH]; intro H; cbn [value_at].
  - now rewrite (H 0%nat) by lia.
  - rewrite (H (S i)) by lia. rewrite IH; [reflexivity|].
    intros k Hk. apply H. lia.
Qed.

(** The value at a tick depends on the sizes logged there only through
    their being any and their maximum. *)
Lemma value_at_ext_max (qs qs' : list event) :
  (forall i, (sizes_at (tick_key i) qs = [] <-> sizes_at (tick_key i) qs' = []) /\
             list_max (sizes_at (tick_key i) qs) = list_max (sizes_at (tick_key i) qs')) ->
  forall i, value_at qs i = value_at qs' i.
Proof.
  intros H i. induction i as [|i IH]; cbn [value_at].
  - destruct (H 0%nat) as [He Hm].
    destruct (sizes_at (tick_key 0) qs) eqn:E1, (sizes_at (tick_key 0) qs') eqn:E2;
      first [ reflexivity | exact Hm
            | destruct He as [He _]; discriminate (He eq_refl)
            | destruct He as [_ He]; discriminate (He eq_refl) ].
  - destruct (H (S i)) as [He Hm].
    destruct (sizes_at (tick_key (S i)) qs) eqn:E1,
             (sizes_at (tick_key (S i)) qs') eqn:E2;
      first [ exact IH | exact Hm
            | destruct He as [He _]; discriminate (He eq_refl)
            | destruct He as [_ He]; discriminate (He eq_refl) ].
Qed.

Lemma sizes_at_perm (qs qs' : list event) (u : Q) :
  Permutation qs qs' -> Permutation (sizes_at u qs) (sizes_at u qs').
Proof.
  intro H. unfold sizes_at, events_at. apply Permutation_map.
  induction H as [|x l l' H IH|x y l|l l' l'' H1 IH1 H2 IH2]; simpl.
  - constructor.
  - destruct (Qeq_bool (ev_time x) u); [now constructor | exact IH].
  - destruct (Qeq_bool (ev_time x) u), (Qeq_bool (ev_time y) u);
      try apply Permutation_refl. constructor.
  - now transitivity (filter (fun e => Qeq_bool (ev_time e) u) l').
Qed.

Lemma list_max_perm (l l' : list nat) :
  Permutation l l' -> list_max l = list_max l'.
Proof.
  intro H. apply Nat.le_antisymm; apply list_max_le; apply Forall_forall;
    intros x Hx.
  - apply (Permutation_in _ H) in Hx.
    now apply (proj1 (Forall_forall _ _) (proj1 (list_max_le l' _) (Nat.le_refl _))).
  - apply (Permutation_in _ (Permutation_sym H)) in Hx.
    now apply (proj1 (Forall_forall _ _) (proj1 (list_max_le l _) (Nat.le_refl _))).
Qed.

Lemma tick_key_lt (k i : nat) : (k < i)%nat -> tick_key k < tick_key i.
Proof. intro H. unfold tick_key. rewrite <- Zlt_Qlt. lia. Qed.

Lemma tick_key_le (k i : nat) : (k <= i)%nat -> tick_key k <= tick_key i.
Proof. intro H. unfold tick_key. rewrite <- Zle_Qle. lia. Qed.

Lemma not_key_when_lt (time u : Q) : u < time -> Qeq_bool time u = false.
Proof.
  intro H. destruct (Qeq_bool time u) eqn:E; [|reflexivity].
  apply Qeq_bool_iff in E. rewrite E in H. now apply Qlt_irrefl in H.
Qed.

Lemma not_key_when_gt (time u : Q) : time < u -> Qeq_bool time u = false.
Proof.
  intro H. destruct (Qeq_bool time u) eqn:E; [|reflexivity].
  apply Qeq_bool_iff in E. rewrite E in H. now apply Qlt_irrefl in H.
Qed.

Lemma sizes_at_drop (before after : list event) (e : event) (u : Q) :
  Qeq_bool (ev_time e) u = false ->
  sizes_at u (before ++ e :: after) = sizes_at u (before ++ after).
Proof.
  intro H. unfold sizes_at, events_at. rewrite !filter_app. cbn [filter].
  now rewrite H.
Qed.

Lemma py_int_below (now : Q) : 0 <= now -> inject_Z (py_int now) <= now.
Proof.
  intro H. assert (E : py_int now = Qfloor now).
  { destruct now as [n d]. unfold py_int, Qfloor. simpl.
    unfold Qle in H. simpl in H. apply Z.quot_div_nonneg; lia. }
  rewrite E. apply Qfloor_le.
Qed.

(** An event whose timestamp is the key of no tick below [int(now)] can be
    dropped from the log. *)
Lemma series_drop_event (now : Q) (nm nm' : string)
    (before after : list event) (e : event) :
  (forall k : nat, (k < Z.to_nat (py_int now))%nat ->
     Qeq_bool (ev_time e) (tick_key k) = false) ->
  queue_size_over_time now (mk nm (before ++ e :: after))
  = queue_size_over_time now (mk nm' (before ++ after)).
Proof.
  intro H. rewrite !RS_eq. cbn [queue_size].
  apply map_ext_in. intros i Hi. apply in_seq in Hi.
  apply value_at_ext_upto. intros k Hk. apply sizes_at_drop. apply H. lia.
Qed.

Lemma outside_range_no_key (now : Q) (time : Q) (k : nat) :
  inject_Z (py_int now) <= time \/ time < 0 ->
  (k < Z.to_nat (py_int now))%nat ->
  Qeq_bool time (tick_key k) = false.
Proof.
  intros [H|H] Hk.
  - apply not_key_when_lt. apply Qlt_le_trans with (inject_Z (py_int now)); [|exact H].
    unfold tick_key. rewrite <- Zlt_Qlt. lia.
  - apply not_key_when_gt. apply Qlt_le_trans with 0; [exact H|].
    unfold tick_key. change 0 with (inject_Z 0). rewrite <- Zle_Qle. lia.
Qed.

Lemma at_now_outside_range (now : Q) :
  inject_Z (py_int now) <= now \/ now < 0.
Proof.
  destruct (Qlt_le_dec now 0) as [H|H]; [now right | left; now apply py_int_below].
Qed.

End SeriesFacts.

Example ordered_log_series :
  RS.queue_size_over_time 6 (RS.mk "Counter" MoreScenarios.ordered_log)
  = [0; 2; 5; 5; 1; 1]%nat.
Proof. reflexivity. Qed.

(** X1: on a resource that has logged nothing the series is [floor(now)]
    zeros. *)
Theorem empty_log_series (now : Q) (cls_name : string) :
  RS.queue_size_over_time now (RS.init cls_name)
  = repeat 0%nat (Z.to_nat (Qfloor now)).
Proof.
  rewrite RS_eq, <- py_int_floor. cbn [RS.init RS.queue_size].
  rewrite (map_ext (RS.value_at []) (fun _ => 0%nat)).
  - now rewrite map_const, length_seq.
  - intro i. induction i as [|i IH]; cbn [RS.value_at]; [reflexivity | exact IH].
Qed.

(** X2: the series computed at an earlier time is a prefix of the series
    computed on the same log at a later time: entries already reported are
    never revised by the clock moving on. *)
Theorem series_prefix (now later : Q) (self : RS.t) :
  now <= later ->
  RS.queue_size_over_time now self
  = firstn (Z.to_nat (Qfloor now)) (RS.queue_size_over_time later self).
Proof.
  intro H. rewrite !RS_eq, firstn_map, <- py_int_floor.
  now rewrite firstn_seq_le by now apply py_int_mono.
Qed.

Lemma series_prefix_witness :
  3 <= 6 /\
  RS.queue_size_over_time 3 (RS.mk "Counter" MoreScenarios.ordered_log)
  = firstn (Z.to_nat (Qfloor 3))
      (RS.queue_size_over_time 6 (RS.mk "Counter" MoreScenarios.ordered_log)).
Proof.
  assert (H : 3 <= 6) by (unfold Qle; simpl; lia).
  split; [exact H|].
  exact (series_prefix 3 6 (RS.mk "Counter" MoreScenarios.ordered_log) H).
Defined.

(** X3: the series does not depend on the order in which the events were
    appended to the log: two logs with the same events give the same
    series. *)
Theorem series_permutation (now : Q) (self self' : RS.t) :
  Permutation (RS.queue_size self) (RS.queue_size self') ->
  RS.queue_size_over_time now self = RS.queue_size_over_time now self'.
Proof.
  intro H. rewrite !RS_eq. apply map_ext. apply value_at_ext_max. intro i.
  pose proof (sizes_at_perm _ _ (RS.tick_key i) H) as Hp. split.
  - split; intro E; rewrite E in Hp.
    + now apply Permutation_nil.
    + apply Permutation_sym in Hp. now apply Permutation_nil.
  - now apply list_max_perm.
Qed.

Lemma series_permutation_witness :
  Permutation MoreScenarios.ordered_log MoreScenarios.shuffled_log /\
  RS.queue_size_over_time 6 (RS.mk "Counter" MoreScenarios.ordered_log)
  = RS.queue_size_over_time 6 (RS.mk "Counter" MoreScenarios.shuffled_log).
Proof.
  assert (H : Permutation MoreScenarios.ordered_log MoreScenarios.shuffled_log)
    by apply Permutation_rev.
  split; [exact H|].
  exact (series_permutation 6 (RS.mk "Counter" MoreScenarios.ordered_log)
           (RS.mk "Counter" MoreScenarios.shuffled_log) H).
Defined.

(** X4: the series never reads the kind of an event: two logs that agree
    on the times and sizes of their entries give the same series. *)
Theorem series_ignores_status (now : Q) (self self' : RS.t) :
  map (fun e => (RS.ev_time e, RS.ev_size e)) (RS.queue_size self)
  = map (fun e => (RS.ev_time e, RS.ev_size e)) (RS.queue_size self') ->
  RS.queue_size_over_time now self = RS.queue_size_over_time now self'.
Proof.
  intro H. rewrite !RS_eq. apply map_ext. apply value_at_ext. intro i.
  generalize dependent (RS.queue_size self').
  induction (RS.queue_size self) as [|e qs IH]; intros [|e' qs'] H;
    try discriminate; [reflexivity|].
  injection H as Ht Hs Hq. unfold RS.sizes_at, RS.events_at. cbn [filter].
  rewrite Ht. destruct (Qeq_bool (RS.ev_time e') (RS.tick_key i)); cbn [map].
  - rewrite Hs. f_equal. now apply IH.
  - now apply IH.
Qed.

Lemma series_ignores_status_witness :
  map (fun e => (RS.ev_time e, RS.ev_size e)) MoreScenarios.ordered_log
  = map (fun e => (RS.ev_time e, RS.ev_size e)) MoreScenarios.relabelled_log /\
  RS.queue_size_over_time 6 (RS.mk "Counter" MoreScenarios.ordered_log)
  = RS.queue_size_over_time 6 (RS.mk "Counter" MoreScenarios.relabelled_log).
Proof.
  split; [reflexivity|].
  exact (series_ignores_status 6 (RS.mk "Counter" MoreScenarios.ordered_log)
           (RS.mk "Counter" MoreScenarios.relabelled_log) eq_refl).
Defined.

(** X5: an event stamped at or after [int(now)], or before time 0, is on
    no tick of the series computed at [now]: the series is the same with
    and without it. *)
Theorem event_outside_range_invisible
    (now : Q) (nm : string) (before after : list RS.event) (e : RS.event) :
  inject_Z (RS.py_int now) <= RS.ev_time e \/ RS.ev_time e < 0 ->
  RS.queue_size_over_time now (RS.mk nm (before ++ e :: after))
  = RS.queue_size_over_time now (RS.mk nm (before ++ after)).
Proof.
  intro H. apply series_drop_event. intros k Hk.
  exact (outside_range_no_key now _ k H Hk).
Qed.

Lemma event_outside_range_invisible_witness :
  (inject_Z (RS.py_int (11 # 2)) <= RS.ev_time MoreScenarios.late_event \/
   RS.ev_time MoreScenarios.late_event < 0) /\
  RS.queue_size_over_time (11 # 2)
    (RS.mk "Counter" (MoreScenarios.ordered_log ++ MoreScenarios.late_event :: []))
  = RS.queue_size_over_time (11 # 2)
      (RS.mk "Counter" (MoreScenarios.ordered_log ++ [])).
Proof.
  assert (H : inject_Z (RS.py_int (11 # 2)) <= RS.ev_time MoreScenarios.late_event \/
              RS.ev_time MoreScenarios.late_event < 0).
  { left. vm_compute. discriminate. }
  split; [exact H|].
  exact (event_outside_range_invisible (11 # 2) "Counter" MoreScenarios.ordered_log []
           MoreScenarios.late_event H).
Defined.

(** X6: what [request] and [add_queue_check] log at the current time is
    not in the series computed at that same time: the series only covers
    the ticks strictly before [int(now)]. *)
Theorem logged_now_not_in_series (now : Q) (len_queue : nat) (self : RS.t) :
  RS.queue_size_over_time now (RS.request now len_queue self)
    = RS.queue_size_over_time now self /\
  RS.queue_size_over_time now (RS.add_queue_check now len_queue self)
    = RS.queue_size_over_time now self.
Proof.
  destruct self as [nm qs].
  split.
  - etransitivity;
      [apply (series_drop_event now nm nm qs [] (now, len_queue, RS.request_status))
      | now rewrite app_nil_r].
    intros k Hk. exact (outside_range_no_key now now k (at_now_outside_range now) Hk).
  - etransitivity;
      [apply (series_drop_event now nm nm qs [] (now, len_queue, RS.start_status))
      | now rewrite app_nil_r].
    intros k Hk. exact (outside_range_no_key now now k (at_now_outside_range now) Hk).
Qed.

(** X7: the value at a tick is the largest size logged at the latest tick
    up to it that has any event. *)
Theorem series_last_observation (now : Q) (self : RS.t) (j i : nat) :
  (j <= i)%nat ->
  (i < List.length (RS.queue_size_over_time now self))%nat ->
  RS.sizes_at (RS.tick_key j) (RS.queue_size self) <> [] ->
  (forall k : nat, (j < k)%nat -> (k <= i)%nat ->
     RS.sizes_at (RS.tick_key k) (RS.queue_size self) = []) ->
  nth i (RS.queue_size_over_time now self) 0%nat
  = list_max (RS.sizes_at (RS.tick_key j) (RS.queue_size self)).
Proof.
  intros Hji Hi Hj Hnone. rewrite RS_nth by exact Hi. clear Hi.
  induction i as [|i IH].
  - assert (j = 0%nat) as -> by lia. cbn [RS.value_at].
    destruct (RS.sizes_at (RS.tick_key 0) (RS.queue_size self)); congruence.
  - destruct (Nat.eq_dec j (S i)) as [->|Hne].
    + cbn [RS.value_at].
      destruct (RS.sizes_at (RS.tick_key (S i)) (RS.queue_size self)); congruence.
    + cbn [RS.value_at]. rewrite (Hnone (S i)) by lia.
      apply IH; [lia|]. intros k Hk1 Hk2. apply Hnone; lia.
Qed.

Lemma series_last_observation_witness :
  (2 <= 3)%nat /\
  (3 < List.length
         (RS.queue_size_over_time 6 (RS.mk "Counter" MoreScenarios.ordered_log)))%nat /\
  RS.sizes_at (RS.tick_key 2) MoreScenarios.ordered_log <> [] /\
  nth 3 (RS.queue_size_over_time 6 (RS.mk "Counter" MoreScenarios.ordered_log)) 0%nat
  = 5%nat.
Proof.
  assert (H1 : (2 <= 3)%nat) by lia.
  assert (H2 : (3 < List.length
                  (RS.queue_size_over_time 6
                     (RS.mk "Counter" MoreScenarios.ordered_log)))%nat)
    by (vm_compute; lia).
  assert (H3 : RS.sizes_at (RS.tick_key 2) MoreScenarios.ordered_log <> [])
    by (vm_compute; discriminate).
  split; [exact H1|]. split; [exact H2|]. split; [exact H3|].
  apply (series_last_observation 6 (RS.mk "Counter" MoreScenarios.ordered_log) 2 3
           H1 H2 H3).
  intros k Hk1 Hk2. assert (k = 3%nat) as -> by lia. reflexivity.
Defined.

(** X8: an event only affects the series from its own tick on: the value
    at every tick before the event's timestamp is the same with and without
    the event. *)
Theorem event_leaves_earlier_ticks
    (now : Q) (nm : string) (before after : list RS.event) (e : RS.event) (i : nat) :
  RS.tick_key i < RS.ev_time e ->
  nth i (RS.queue_size_over_time now (RS.mk nm (before ++ e :: after))) 0%nat
  = nth i (RS.queue_size_over_time now (RS.mk nm (before ++ after))) 0%nat.
Proof.
  intro H.
  destruct (Nat.lt_ge_cases i (Z.to_nat (RS.py_int now))) as [Hi|Hi].
  - rewrite !RS_nth by now rewrite RS_length.
    cbn [RS.queue_size]. apply value_at_ext_upto. intros k Hk.
    apply sizes_at_drop. apply not_key_when_lt.
    apply Qle_lt_trans with (RS.tick_key i); [now apply tick_key_le | exact H].
  - rewrite !nth_overflow by now rewrite RS_length. reflexivity.
Qed.

Lemma event_leaves_earlier_ticks_witness :
  RS.tick_key 3 < RS.ev_time (4, 7%nat, RS.request_status) /\
  nth 3 (RS.queue_size_over_time 6
           (RS.mk "Counter"
              (MoreScenarios.ordered_log ++ (4, 7%nat, RS.request_status) :: []))) 0%nat
  = nth 3 (RS.queue_size_over_time 6
             (RS.mk "Counter" (MoreScenarios.ordered_log ++ []))) 0%nat.
Proof.
  assert (H : RS.tick_key 3 < RS.ev_time (4, 7%nat, RS.request_status))
    by reflexivity.
  split; [exact H|].
  exact (event_leaves_earlier_ticks 6 "Counter" MoreScenarios.ordered_log []
           (4, 7%nat, RS.request_status) 3 H).
Defined.

(** ** Further properties of an entity *)

Section EntityMore.
Import Entity.

Lemma od_set_new (d : odict) (k : string) (v : visit) :
  od_get d k = None -> od_set d k v = d ++ [(k, v)].
Proof.
  induction d as [|[k' v'] d IH]; simpl; [reflexivity|].
  destruct (String.eqb k' k); [discriminate|].
  intro H. now rewrite IH.
Qed.

Lemma sum_over_app (f : visit -> Q) (d d' : odict) :
  sum_over f (d ++ d') == sum_over f d + sum_over f d'.
Proof.
  induction d as [|[k v] d IH]; simpl; [ring|]. rewrite IH. ring.
Qed.

Lemma sum_over_sojourn (d : odict) :
  sum_over waiting_of d + sum_over processing_of d
  == sum_over EntityFacts.sojourn_of d.
Proof.
  induction d as [|[k v] d IH]; simpl; [ring|]. rewrite <- IH.
  unfold waiting_of, processing_of, EntityFacts.sojourn_of. ring.
Qed.

Lemma sum_over_nonneg (f : visit -> Q) (d : odict) :
  Forall (fun kv => 0 <= f (snd kv)) d -> 0 <= sum_over f d.
Proof.
  induction d as [|[k v] d IH]; simpl; intro H; [apply Qle_refl|].
  apply Forall_cons_iff in H. destruct H as [Hv Hd]. simpl in Hv.
  apply Qle_trans with (0 + 0); [now rewrite Qplus_0_l; apply Qle_refl|].
  apply Qplus_le_compat; [exact Hv | now apply IH].
Qed.

Lemma calculate_statistics_stored (e e1 : t) :
  _calculate_statistics e = Ok e1 ->
  exists total waiting processing : Q,
    total_time e1 = Some total /\
    waiting_time e1 = Some waiting /\
    processing_time e1 = Some processing.
Proof.
  unfold _calculate_statistics.
  destruct (negb (is_disposed e)); [discriminate|].
  destruct (stats_loop e (resources_requested e) (0, 0)) as [wp|]; simpl;
    [|discriminate].
  destruct (py_sub (disposal_time e) (creation_time e)) as [total|]; simpl;
    [|discriminate].
  intros [= <-]. simpl. do 3 eexists. repeat split; reflexivity.
Qed.

Lemma key_present (d : odict) (k : string) :
  existsb (String.eqb k) (map fst d) = true <-> od_get d k <> None.
Proof.
  induction d as [|[k' v'] d IH]; simpl; [split; [discriminate | congruence]|].
  rewrite (String.eqb_sym k k').
  destruct (String.eqb k' k); simpl; [split; [discriminate | reflexivity]|].
  exact IH.
Qed.

End EntityMore.

(** X9: on an entity that has its [name], the entity's own steps of
    [request_resource] (the print, the reset of the record and the arrival
    stamp) raise nothing and leave the record [(now, 0, 0)], while
    [start_service_at_resource] and [release_resource] raise [KeyError]
    exactly when the resource has not been requested, and otherwise stamp
    the record.  On an entity without a [name] each of the three raises
    [AttributeError] at its print, before any record is touched, and
    [dispose] raises it after the disposal stamp has been assigned. *)
Theorem visit_calls_key_error (now : Q) (r : string) (self : NamedEntity.t) :
  (NamedEntity.name self = None ->
     NamedEntity.request_resource now r self = Err (AttributeError "name") /\
     NamedEntity.start_service_at_resource now r self = Err (AttributeError "name") /\
     NamedEntity.release_resource now r self = Err (AttributeError "name") /\
     snd (NamedEntity.dispose now self) = Err (AttributeError "name") /\
     Entity.disposal_time (NamedEntity.state (fst (NamedEntity.dispose now self)))
       = Some now) /\
  (NamedEntity.name self <> None ->
     (exists self',
        NamedEntity.request_resource now r self = Ok self' /\
        Entity.od_get (Entity.resources_requested (NamedEntity.state self')) r
          = Some (Entity.mk_visit now 0 0)) /\
     (NamedEntity.start_service_at_resource now r self = Err (KeyError r) <->
      Entity.od_get (Entity.resources_requested (NamedEntity.state self)) r = None) /\
     (NamedEntity.release_resource now r self = Err (KeyError r) <->
      Entity.od_get (Entity.resources_requested (NamedEntity.state self)) r = None) /\
     (Entity.od_get (Entity.resources_requested (NamedEntity.state self)) r <> None ->
      exists e1 e2,
        NamedEntity.start_service_at_resource now r self = Ok e1 /\
        NamedEntity.release_resource now r self = Ok e2) /\
     snd (NamedEntity.dispose now self) = Ok now).
Proof.
  destruct self as [[n|] st];
    unfold NamedEntity.request_resource, NamedEntity.start_service_at_resource,
      NamedEntity.release_resource, NamedEntity.dispose, NamedEntity.read_name;
    cbn [NamedEntity.name NamedEntity.state bind fst snd].
  - split; [discriminate|]. intros _.
    split.
    { rewrite request_resource_ok. cbn [bind]. eexists. split; [reflexivity|].
      cbn. apply od_get_set_same. }
    unfold Entity.start_service_at_resource, Entity.release_resource.
    destruct (Entity.od_get (Entity.resources_requested st) r) as [v|] eqn:E.
    + rewrite !(update_visit_ok _ _ _ v E). cbn [bind].
      split; [split; discriminate|]. split; [split; discriminate|].
      split; [eauto | reflexivity].
    + rewrite !(update_visit_missing _ _ _ E). cbn [bind].
      split; [tauto|]. split; [tauto|]. split; [congruence | reflexivity].
  - split; [|congruence]. intros _. repeat split.
Qed.

Lemma visit_calls_key_error_witness :
  NamedEntity.name (NamedEntity.init None) = None /\
  NamedEntity.request_resource 0 "A" (NamedEntity.init None)
    = Err (AttributeError "name") /\
  NamedEntity.name MoreScenarios.hand_built <> None /\
  (NamedEntity.release_resource 7 "B" MoreScenarios.hand_built = Err (KeyError "B") <->
   Entity.od_get
     (Entity.resources_requested (NamedEntity.state MoreScenarios.hand_built)) "B"
   = None) /\
  exists self',
    NamedEntity.request_resource 0 "A" MoreScenarios.hand_built = Ok self' /\
    Entity.od_get (Entity.resources_requested (NamedEntity.state self')) "A"
      = Some (Entity.mk_visit 0 0 0).
Proof.
  assert (H1 : NamedEntity.name (NamedEntity.init None) = None) by reflexivity.
  assert (H2 : NamedEntity.name MoreScenarios.hand_built <> None)
    by (simpl; discriminate).
  split; [exact H1|].
  split; [exact (proj1 (proj1 (visit_calls_key_error 0 "A" (NamedEntity.init None)) H1))|].
  split; [exact H2|].
  split.
  - exact (proj1 (proj2 (proj2 (visit_calls_key_error 7 "B" MoreScenarios.hand_built)
                           H2))).
  - exact (proj1 (proj2 (visit_calls_key_error 0 "A" MoreScenarios.hand_built) H2)).
Defined.

(** X10: a call that stamps one resource leaves the record of every other
    resource, the creation stamp and the stored statistics as they were;
    [dispose] leaves every record as it was. *)
Theorem call_leaves_other_records
    (c : Entity.call) (e e' : Entity.t) (r : string) :
  Entity.run_call c e = Ok e' ->
  EntityFacts.call_target c <> Some r ->
  Entity.od_get (Entity.resources_requested e') r
    = Entity.od_get (Entity.resources_requested e) r /\
  Entity.creation_time e' = Entity.creation_time e /\
  Entity.total_time e' = Entity.total_time e /\
  Entity.waiting_time e' = Entity.waiting_time e /\
  Entity.processing_time e' = Entity.processing_time e.
Proof.
  destruct c as [r' now|r' now|r' now|now]; simpl; intros H Hne.
  - rewrite request_resource_ok in H. injection H as <-. simpl.
    rewrite od_get_set_other by congruence. tauto.
  - apply update_visit_inv in H. destruct H as [v [_ ->]]. simpl.
    rewrite od_get_set_other by congruence. tauto.
  - apply update_visit_inv in H. destruct H as [v [_ ->]]. simpl.
    rewrite od_get_set_other by congruence. tauto.
  - injection H as <-. simpl. tauto.
Qed.

Lemma call_leaves_other_records_witness :
  Entity.run_call (Entity.Request "A" 8) Scenario.after_first_round
    = Ok (Entity.set_resources_requested
            [("A"%string, Entity.mk_visit 8 0 0); ("B"%string, Entity.mk_visit 5 6 8)]
            Scenario.after_first_round) /\
  EntityFacts.call_target (Entity.Request "A" 8) <> Some "B"%string /\
  Entity.od_get
    (Entity.resources_requested
       (Entity.set_resources_requested
          [("A"%string, Entity.mk_visit 8 0 0); ("B"%string, Entity.mk_visit 5 6 8)]
          Scenario.after_first_round)) "B"
  = Entity.od_get (Entity.resources_requested Scenario.after_first_round) "B".
Proof.
  assert (H1 : Entity.run_call (Entity.Request "A" 8) Scenario.after_first_round
               = Ok (Entity.set_resources_requested
                       [("A"%string, Entity.mk_visit 8 0 0);
                        ("B"%string, Entity.mk_visit 5 6 8)]
                       Scenario.after_first_round)) by reflexivity.
  assert (H2 : EntityFacts.call_target (Entity.Request "A" 8) <> Some "B"%string)
    by (simpl; discriminate).
  split; [exact H1|]. split; [exact H2|].
  exact (proj1 (call_leaves_other_records _ _ _ "B" H1 H2)).
Defined.

Lemma run_call_keys (c : Entity.call) (e e' : Entity.t) :
  Entity.run_call c e = Ok e' ->
  map fst (Entity.resources_requested e')
  = match c with
    | Entity.Request r _ =>
        EntityFacts.add_key (map fst (Entity.resources_requested e)) r
    | _ => map fst (Entity.resources_requested e)
    end.
Proof.
  destruct c as [r now|r now|r now|now]; simpl; intro H.
  - rewrite request_resource_ok in H. injection H as <-. simpl.
    rewrite od_set_keys. unfold EntityFacts.add_key.
    pose proof (key_present (Entity.resources_requested e) r) as Hk.
    destruct (Entity.od_get (Entity.resources_requested e) r) as [v|].
    + now rewrite (proj2 Hk) by discriminate.
    + destruct (existsb (String.eqb r) (map fst (Entity.resources_requested e)));
        [|reflexivity].
      now destruct (proj1 Hk eq_refl).
  - apply update_visit_inv in H. destruct H as [v [Hv ->]]. simpl.
    now rewrite od_set_keys, Hv.
  - apply update_visit_inv in H. destruct H as [v [Hv ->]]. simpl.
    now rewrite od_set_keys, Hv.
  - now injection H as <-.
Qed.

Lemma run_keys (cs : list Entity.call) : forall e e' : Entity.t,
  Entity.run cs e = Ok e' ->
  map fst (Entity.resources_requested e')
  = fold_left
      (fun keys c =>
         match c with
         | Entity.Request r _ => EntityFacts.add_key keys r
         | _ => keys
         end)
      cs (map fst (Entity.resources_requested e)).
Proof.
  induction cs as [|c cs IH]; intros e e'; simpl.
  - now intros [= <-].
  - destruct (Entity.run_call c e) as [e1|] eqn:E; simpl; [|discriminate].
    intro H. rewrite (IH _ _ H), (run_call_keys c e e1 E).
    now destruct c.
Qed.

(** X11: the dictionary of visit records lists the resources in the order
    in which the entity first requested them: after any sequence of calls
    on a fresh entity its keys are the requested names, each once, in order
    of first request. *)
Theorem visit_order_kept (cs : list Entity.call) (fresh e : Entity.t) :
  Entity.resources_requested fresh = [] ->
  Entity.run cs fresh = Ok e ->
  map fst (Entity.resources_requested e) = EntityFacts.visit_order cs.
Proof.
  intros Hfresh H. rewrite (run_keys cs fresh e H), Hfresh. reflexivity.
Qed.

Lemma visit_order_kept_witness :
  Entity.resources_requested Scenario.customer = [] /\
  Entity.run
    (MoreScenarios.queued_at_b_calls
       ++ [Entity.StartService "B" 7; Entity.Release "B" 8; Entity.Request "A" 8])
    Scenario.customer
  = Ok (Scenario.spawned 0 None
          [("A"%string, Entity.mk_visit 8 0 0); ("B"%string, Entity.mk_visit 6 7 8)]) /\
  map fst
    (Entity.resources_requested
       (Scenario.spawned 0 None
          [("A"%string, Entity.mk_visit 8 0 0); ("B"%string, Entity.mk_visit 6 7 8)]))
  = ["A"%string; "B"%string].
Proof.
  assert (H1 : Entity.resources_requested Scenario.customer = []) by reflexivity.
  assert (H2 : Entity.run
                 (MoreScenarios.queued_at_b_calls
                    ++ [Entity.StartService "B" 7; Entity.Release "B" 8;
                        Entity.Request "A" 8])
                 Scenario.customer
               = Ok (Scenario.spawned 0 None
                       [("A"%string, Entity.mk_visit 8 0 0);
                        ("B"%string, Entity.mk_visit 6 7 8)])) by reflexivity.
  split; [exact H1|]. split; [exact H2|].
  exact (visit_order_kept _ _ _ H1 H2).
Defined.

Lemma sum_over_integer (f : Entity.visit -> Q) (d : Entity.odict) :
  Forall (fun kv => exists z : Z, f (snd kv) == inject_Z z) d ->
  exists z : Z, Entity.sum_over f d == inject_Z z.
Proof.
  induction d as [|[k v] d IH]; simpl; intro H.
  - exists 0%Z. reflexivity.
  - apply Forall_cons_iff in H. destruct H as [[z Hz] Hd]. simpl in Hz.
    destruct (IH Hd) as [z' Hz']. exists (z + z')%Z.
    now rewrite Hz, Hz', inject_Z_plus.
Qed.

(** X12: on a disposed entity that has its creation stamp and whose visit
    stamps are all integers, the total waiting time and the total
    processing time are integers, and they add up to the time from arrival
    to end of service summed over the visited resources. *)
Theorem waiting_plus_processing (e : Entity.t) (c d : Q) :
  Entity.wf e ->
  Entity.creation_time e = Some c ->
  Entity.disposal_time e = Some d ->
  Forall (fun kv => EntityFacts.integer_stamps (snd kv)) (Entity.resources_requested e) ->
  exists (w p : Q) (zw zp : Z),
    Entity.returned (Entity.get_total_waiting_time e) = Ok w /\
    Entity.returned (Entity.get_total_processing_time e) = Ok p /\
    w == inject_Z zw /\
    p == inject_Z zp /\
    w + p == Entity.sum_over EntityFacts.sojourn_of (Entity.resources_requested e).
Proof.
  intros Hwf Hc Hd Hint.
  destruct (getters_ok e c d Hwf Hc Hd) as [_ [Hw Hp]].
  destruct (sum_over_integer Entity.waiting_of (Entity.resources_requested e))
    as [zw Hzw].
  { eapply Forall_impl; [|exact Hint].
    intros [k v] [a [s [f [Ha [Hs Hf]]]]]. simpl in *. exists (s - a)%Z.
    unfold Entity.waiting_of. rewrite Ha, Hs. unfold Qminus, Z.sub.
    now rewrite inject_Z_plus, inject_Z_opp. }
  destruct (sum_over_integer Entity.processing_of (Entity.resources_requested e))
    as [zp Hzp].
  { eapply Forall_impl; [|exact Hint].
    intros [k v] [a [s [f [Ha [Hs Hf]]]]]. simpl in *. exists (f - s)%Z.
    unfold Entity.processing_of. rewrite Hs, Hf. unfold Qminus, Z.sub.
    now rewrite inject_Z_plus, inject_Z_opp. }
  rewrite Hw, Hp. simpl. do 2 eexists. exists zw, zp.
  split; [reflexivity|]. split; [reflexivity|].
  rewrite !accumulate_sum, !Qplus_0_l.
  split; [exact Hzw|]. split; [exact Hzp|].
  apply sum_over_sojourn.
Qed.

Lemma waiting_plus_processing_witness :
  Entity.wf MoreScenarios.on_integer_clock /\
  Entity.creation_time MoreScenarios.on_integer_clock = Some (inject_Z 0) /\
  Entity.disposal_time MoreScenarios.on_integer_clock = Some (inject_Z 9) /\
  Forall (fun kv => EntityFacts.integer_stamps (snd kv))
    (Entity.resources_requested MoreScenarios.on_integer_clock) /\
  exists (w p : Q) (zw zp : Z),
    Entity.returned (Entity.get_total_waiting_time MoreScenarios.on_integer_clock)
      = Ok w /\
    Entity.returned (Entity.get_total_processing_time MoreScenarios.on_integer_clock)
      = Ok p /\
    w == inject_Z zw /\
    p == inject_Z zp /\
    w + p == Entity.sum_over EntityFacts.sojourn_of
               (Entity.resources_requested MoreScenarios.on_integer_clock).
Proof.
  assert (Hwf : Entity.wf MoreScenarios.on_integer_clock).
  { unfold Entity.wf. simpl. repeat constructor; simpl; intuition discriminate. }
  assert (Hint : Forall (fun kv => EntityFacts.integer_stamps (snd kv))
                   (Entity.resources_requested MoreScenarios.on_integer_clock)).
  { repeat constructor; simpl; unfold EntityFacts.integer_stamps; simpl.
    - exists 1%Z, 3%Z, 6%Z. repeat split.
    - exists 6%Z, 7%Z, 9%Z. repeat split. }
  split; [exact Hwf|]. split; [reflexivity|]. split; [reflexivity|].
  split; [exact Hint|].
  exact (waiting_plus_processing MoreScenarios.on_integer_clock (inject_Z 0)
           (inject_Z 9) Hwf eq_refl eq_refl Hint).
Defined.

Example integer_clock_statistics :
  Entity.returned (Entity.get_total_waiting_time MoreScenarios.on_integer_clock) = Ok 3 /\
  Entity.returned (Entity.get_total_processing_time MoreScenarios.on_integer_clock)
    = Ok 5.
Proof. split; reflexivity. Qed.

(** X13: a successful call to any one of the three getters leaves all
    three statistics stored on the entity, and the stored values are the
    ones the three getters return. *)
Theorem getter_stores_all_three (e e' : Entity.t) (v : Q) :
  Entity.get_total_time e = Ok (v, e') \/
  Entity.get_total_waiting_time e = Ok (v, e') \/
  Entity.get_total_processing_time e = Ok (v, e') ->
  exists total waiting processing : Q,
    Entity.total_time e' = Some total /\
    Entity.waiting_time e' = Some waiting /\
    Entity.processing_time e' = Some processing /\
    Entity.returned (Entity.get_total_time e) = Ok total /\
    Entity.returned (Entity.get_total_waiting_time e) = Ok waiting /\
    Entity.returned (Entity.get_total_processing_time e) = Ok processing.
Proof.
  unfold Entity.get_total_time, Entity.get_total_waiting_time,
    Entity.get_total_processing_time.
  intro H. destruct (Entity.is_disposed e); [|now destruct H as [H|[H|H]]].
  destruct (Entity._calculate_statistics e) as [e1|] eqn:E; simpl in *;
    [|now destruct H as [H|[H|H]]].
  destruct (calculate_statistics_stored e e1 E) as [t [w [p [Ht [Hw Hp]]]]].
  rewrite Ht, Hw, Hp in *. simpl in *.
  assert (e' = e1) as -> by (destruct H as [H|[H|H]]; congruence).
  exists t, w, p. tauto.
Qed.

Lemma getter_stores_all_three_witness :
  Entity.get_total_processing_time Scenario.served_customer
    = Ok (0 + (5 - 2), Entity.with_statistics 0 5 Scenario.served_customer) /\
  exists total waiting processing : Q,
    Entity.total_time (Entity.with_statistics 0 5 Scenario.served_customer)
      = Some total /\
    Entity.waiting_time (Entity.with_statistics 0 5 Scenario.served_customer)
      = Some waiting /\
    Entity.processing_time (Entity.with_statistics 0 5 Scenario.served_customer)
      = Some processing /\
    Entity.returned (Entity.get_total_time Scenario.served_customer) = Ok total /\
    Entity.returned (Entity.get_total_waiting_time Scenario.served_customer)
      = Ok waiting /\
    Entity.returned (Entity.get_total_processing_time Scenario.served_customer)
      = Ok processing.
Proof.
  assert (H : Entity.get_total_processing_time Scenario.served_customer
              = Ok (0 + (5 - 2), Entity.with_statistics 0 5 Scenario.served_customer))
    by reflexivity.
  split; [exact H|].
  exact (getter_stores_all_three _ _ _ (or_intror (or_intror H))).
Defined.

(** X14: on a disposed entity that never received a creation stamp all
    three getters raise [TypeError]: the subtraction of the stamps fails
    after the sums over the visits have been computed, whichever statistic
    was asked for. *)
Theorem getters_type_error_without_creation (e : Entity.t) :
  Entity.wf e ->
  Entity.disposal_time e <> None ->
  Entity.creation_time e = None ->
  Entity.get_total_time e = Err TypeError /\
  Entity.get_total_waiting_time e = Err TypeError /\
  Entity.get_total_processing_time e = Err TypeError.
Proof.
  intros Hwf Hd Hc.
  unfold Entity.get_total_time, Entity.get_total_waiting_time,
    Entity.get_total_processing_time, Entity._calculate_statistics,
    Entity.is_disposed.
  destruct (Entity.disposal_time e) as [d|]; [|congruence]. simpl.
  rewrite stats_loop_ok by (intros k v; now apply in_od_get).
  rewrite Hc. simpl. tauto.
Qed.

Lemma getters_type_error_without_creation_witness :
  Entity.wf Scenario.never_created /\
  Entity.disposal_time Scenario.never_created <> None /\
  Entity.creation_time Scenario.never_created = None /\
  Entity.get_total_time Scenario.never_created = Err TypeError /\
  Entity.get_total_waiting_time Scenario.never_created = Err TypeError /\
  Entity.get_total_processing_time Scenario.never_created = Err TypeError.
Proof.
  assert (H2 : Entity.disposal_time Scenario.never_created <> None)
    by (simpl; discriminate).
  split; [exact wf_init|]. split; [exact H2|]. split; [reflexivity|].
  exact (getters_type_error_without_creation Scenario.never_created
           wf_init H2 eq_refl).
Defined.

(** X15: a visit that is still open when the entity is disposed counts
    with its unset stamps at 0.  Right after the request of a resource not
    visited before, the visit adds [0 - arrival] to the total waiting time
    and nothing to the total processing time; after the service start it
    adds [start - arrival] to the waiting time and [0 - start] to the
    processing time. *)
Theorem open_visit_statistics
    (e : Entity.t) (r : string) (c arrival start d : Q) :
  Entity.wf e ->
  Entity.creation_time e = Some c ->
  Entity.od_get (Entity.resources_requested e) r = None ->
  exists (e1 e2 : Entity.t) (w1 p1 w2 p2 : Q),
    Entity.request_resource arrival r e = Ok e1 /\
    Entity.start_service_at_resource start r e1 = Ok e2 /\
    Entity.returned (Entity.get_total_waiting_time (snd (Entity.dispose d e1))) = Ok w1 /\
    Entity.returned (Entity.get_total_processing_time (snd (Entity.dispose d e1))) = Ok p1 /\
    Entity.returned (Entity.get_total_waiting_time (snd (Entity.dispose d e2))) = Ok w2 /\
    Entity.returned (Entity.get_total_processing_time (snd (Entity.dispose d e2))) = Ok p2 /\
    w1 == Entity.sum_over Entity.waiting_of (Entity.resources_requested e)
          + (0 - arrival) /\
    p1 == Entity.sum_over Entity.processing_of (Entity.resources_requested e) /\
    w2 == Entity.sum_over Entity.waiting_of (Entity.resources_requested e)
          + (start - arrival) /\
    p2 == Entity.sum_over Entity.processing_of (Entity.resources_requested e)
          + (0 - start).
Proof.
  intros Hwf Hc Hnew.
  set (d0 := Entity.resources_requested e) in *.
  set (e1 := Entity.set_resources_requested
               (Entity.od_set d0 r (Entity.mk_visit arrival 0 0)) e).
  set (e2 := Entity.set_resources_requested
               (Entity.od_set d0 r (Entity.mk_visit arrival start 0)) e).
  assert (Hwf1 : Entity.wf (snd (Entity.dispose d e1)))
    by (unfold Entity.wf; simpl; now apply od_set_nodup).
  assert (Hwf2 : Entity.wf (snd (Entity.dispose d e2)))
    by (unfold Entity.wf; simpl; now apply od_set_nodup).
  destruct (getters_ok _ c d Hwf1 Hc eq_refl) as [_ [Hw1 Hp1]].
  destruct (getters_ok _ c d Hwf2 Hc eq_refl) as [_ [Hw2 Hp2]].
  exists e1, e2. rewrite Hw1, Hp1, Hw2, Hp2. simpl. do 4 eexists.
  split; [apply request_resource_ok|].
  split.
  { unfold Entity.start_service_at_resource.
    rewrite (update_visit_ok _ _ _ (Entity.mk_visit arrival 0 0))
      by apply od_get_set_same.
    unfold e1, e2. simpl. now rewrite od_set_set. }
  do 4 (split; [reflexivity|]).
  rewrite !accumulate_sum, !od_set_new by exact Hnew.
  rewrite !sum_over_app. simpl.
  unfold Entity.waiting_of, Entity.processing_of. simpl.
  repeat split; ring.
Qed.

Lemma open_visit_statistics_witness :
  Entity.wf MoreScenarios.served_at_a /\
  Entity.creation_time MoreScenarios.served_at_a = Some 0 /\
  Entity.od_get (Entity.resources_requested MoreScenarios.served_at_a) "B" = None /\
  Entity.returned (Entity.get_total_waiting_time MoreScenarios.disposed_in_queue)
    = Ok (2 - 6) /\
  exists (e1 e2 : Entity.t) (w1 p1 w2 p2 : Q),
    Entity.request_resource 6 "B" MoreScenarios.served_at_a = Ok e1 /\
    Entity.start_service_at_resource 7 "B" e1 = Ok e2 /\
    Entity.returned (Entity.get_total_waiting_time (snd (Entity.dispose 9 e1))) = Ok w1 /\
    Entity.returned (Entity.get_total_processing_time (snd (Entity.dispose 9 e1))) = Ok p1 /\
    Entity.returned (Entity.get_total_waiting_time (snd (Entity.dispose 9 e2))) = Ok w2 /\
    Entity.returned (Entity.get_total_processing_time (snd (Entity.dispose 9 e2))) = Ok p2 /\
    w1 == Entity.sum_over Entity.waiting_of
            (Entity.resources_requested MoreScenarios.served_at_a) + (0 - 6) /\
    p1 == Entity.sum_over Entity.processing_of
            (Entity.resources_requested MoreScenarios.served_at_a) /\
    w2 == Entity.sum_over Entity.waiting_of
            (Entity.resources_requested MoreScenarios.served_at_a) + (7 - 6) /\
    p2 == Entity.sum_over Entity.processing_of
            (Entity.resources_requested MoreScenarios.served_at_a) + (0 - 7).
Proof.
  assert (Hwf : Entity.wf MoreScenarios.served_at_a).
  { unfold Entity.wf. simpl. repeat constructor. simpl. tauto. }
  split; [exact Hwf|]. split; [reflexivity|]. split; [reflexivity|].
  split; [reflexivity|].
  exact (open_visit_statistics MoreScenarios.served_at_a "B" 0 6 7 9
           Hwf eq_refl eq_refl).
Defined.

(** X16: when the stamps of every visit record follow the clock (arrival,
    then service start, then release) and the disposal is not before the
    creation, none of the three statistics is negative. *)
Theorem statistics_nonnegative (e : Entity.t) (c d : Q) :
  Entity.wf e ->
  Entity.creation_time e = Some c ->
  Entity.disposal_time e = Some d ->
  c <= d ->
  Forall (fun kv => EntityFacts.in_clock_order (snd kv)) (Entity.resources_requested e) ->
  exists total waiting processing : Q,
    Entity.returned (Entity.get_total_time e) = Ok total /\
    Entity.returned (Entity.get_total_waiting_time e) = Ok waiting /\
    Entity.returned (Entity.get_total_processing_time e) = Ok processing /\
    0 <= total /\ 0 <= waiting /\ 0 <= processing.
Proof.
  intros Hwf Hc Hd Hcd Hord.
  destruct (getters_ok e c d Hwf Hc Hd) as [Ht [Hw Hp]].
  rewrite Ht, Hw, Hp. simpl. do 3 eexists.
  do 3 (split; [reflexivity|]).
  split; [|split].
  - unfold Qminus. rewrite <- Qle_minus_iff. exact Hcd.
  - rewrite accumulate_sum, Qplus_0_l. apply sum_over_nonneg.
    eapply Forall_impl; [|exact Hord]. intros [k v] [H _]. simpl in *.
    unfold Entity.waiting_of, Qminus. now rewrite <- Qle_minus_iff.
  - rewrite accumulate_sum, Qplus_0_l. apply sum_over_nonneg.
    eapply Forall_impl; [|exact Hord]. intros [k v] [_ H]. simpl in *.
    unfold Entity.processing_of, Qminus. now rewrite <- Qle_minus_iff.
Qed.

Lemma statistics_nonnegative_witness :
  Entity.wf Scenario.served_customer /\
  Entity.creation_time Scenario.served_customer = Some 0 /\
  Entity.disposal_time Scenario.served_customer = Some 5 /\
  0 <= 5 /\
  Forall (fun kv => EntityFacts.in_clock_order (snd kv))
    (Entity.resources_requested Scenario.served_customer) /\
  exists total waiting processing : Q,
    Entity.returned (Entity.get_total_time Scenario.served_customer) = Ok total /\
    Entity.returned (Entity.get_total_waiting_time Scenario.served_customer)
      = Ok waiting /\
    Entity.returned (Entity.get_total_processing_time Scenario.served_customer)
      = Ok processing /\
    0 <= total /\ 0 <= waiting /\ 0 <= processing.
Proof.
  assert (Hwf : Entity.wf Scenario.served_customer).
  { unfold Entity.wf. simpl. repeat constructor. simpl. tauto. }
  assert (Hcd : 0 <= 5) by (unfold Qle; simpl; lia).
  assert (Hord : Forall (fun kv => EntityFacts.in_clock_order (snd kv))
                   (Entity.resources_requested Scenario.served_customer)).
  { repeat constructor; unfold Qle; simpl; lia. }
  split; [exact Hwf|]. split; [reflexivity|]. split; [reflexivity|].
  split; [exact Hcd|]. split; [exact Hord|].
  exact (statistics_nonnegative Scenario.served_customer 0 5 Hwf eq_refl eq_refl
           Hcd Hord).
Defined.

(** ** Attributes and priority *)

Section Attributes.
Import EntityInit.

Lemma a_get_set_same (d : attrs) (k : string) (v : pyvalue) :
  a_get (a_set d k v) k = Some v.
Proof.
  induction d as [|[k' v'] d IH]; simpl.
  - now rewrite String.eqb_refl.
  - destruct (String.eqb k' k) eqn:E; simpl; rewrite E; [reflexivity | exact IH].
Qed.

Lemma a_get_set_other (d : attrs) (k k' : string) (v : pyvalue) :
  k <> k' -> a_get (a_set d k v) k' = a_get d k'.
Proof.
  intro Hne. induction d as [|[k0 v0] d IH]; simpl.
  - apply String.eqb_neq in Hne. now rewrite Hne.
  - destruct (String.eqb k0 k) eqn:E; simpl.
    + apply String.eqb_eq in E. subst k0.
      apply String.eqb_neq in Hne. now rewrite Hne.
    + now rewrite IH.
Qed.

(** The conditional of [request_resource] is a plain lookup: when the key
    is absent the lookup finds nothing either. *)
Lemma priority_argument_get (a : attrs) :
  priority_argument a = a_get a "priority".
Proof.
  unfold priority_argument. induction a as [|[k v] a IH]; simpl; [reflexivity|].
  destruct (String.eqb k "priority"); simpl; [reflexivity | exact IH].
Qed.

Lemma set_attributes_priority (sets : list (string * pyvalue)) :
  forall (a : attrs) (p : pyvalue),
    a_get a "priority" = Some p ->
    exists v : pyvalue,
      a_get (set_attributes sets a) "priority" = Some v /\
      (Forall (fun kv => fst kv <> "priority"%string) sets -> v = p) /\
      (p <> PyNone ->
       Forall (fun kv => fst kv = "priority"%string -> snd kv <> PyNone) sets ->
       v <> PyNone).
Proof.
  induction sets as [|[k x] sets IH]; intros a p Hp; simpl.
  - exists p. tauto.
  - unfold set_attribute. simpl.
    destruct (string_dec k "priority") as [->|Hne].
    + destruct (IH (a_set a "priority" x) x (a_get_set_same _ _ _))
        as [v [Hv [_ Hnone]]].
      exists v. split; [exact Hv|]. split.
      * intro H. apply Forall_cons_iff in H. now destruct H as [H _].
      * intros _ H. apply Forall_cons_iff in H. destruct H as [Hx H].
        apply Hnone; [now apply Hx | exact H].
    + destruct (IH (a_set a k x) p) as [v [Hv [Hsame Hnone]]].
      { now rewrite a_get_set_other. }
      exists v. split; [exact Hv|]. split.
      * intro H. apply Forall_cons_iff in H. now apply Hsame.
      * intros Hpn H. apply Forall_cons_iff in H. now apply Hnone.
Qed.

End Attributes.

(** X17: after construction and any [set_attribute] calls the key
    ['priority'] is in the attributes, so the conditional of
    [request_resource] always takes its lookup branch and forwards the
    stored value, never the [None] of its [else] branch.  As long as no
    [set_attribute] names the key, the stored value is the one given in the
    attributes, else the class attribute, else 0; and it is Python's [None]
    only if a [None] was given as priority in one of those places or by a
    [set_attribute]. *)
Theorem priority_key_always_present
    (process : EntityInit.lookup) (class_priority : option EntityInit.pyvalue)
    (attributes : option EntityInit.attrs) (sets : list (string * EntityInit.pyvalue))
    (a : EntityInit.attrs) (e : Entity.t) :
  EntityInit.init process class_priority attributes = EntityInit.Built (a, e) ->
  exists v : EntityInit.pyvalue,
    EntityInit.priority_argument (EntityInit.set_attributes sets a) = Some v /\
    EntityInit.a_get (EntityInit.set_attributes sets a) "priority" = Some v /\
    (Forall (fun kv => fst kv <> "priority"%string) sets ->
     v = EntityInit.resolve_priority class_priority
           (match attributes with Some d => d | None => [] end)) /\
    (EntityInit.resolve_priority class_priority
       (match attributes with Some d => d | None => [] end) <> EntityInit.PyNone ->
     Forall (fun kv => fst kv = "priority"%string -> snd kv <> EntityInit.PyNone) sets ->
     v <> EntityInit.PyNone).
Proof.
  unfold EntityInit.init. destruct process; try discriminate.
  intros [= <- _]. rewrite priority_argument_get.
  destruct (set_attributes_priority sets _ _
              (a_get_set_same
                 (match attributes with Some d => d | None => [] end) "priority"
                 (EntityInit.resolve_priority class_priority
                    (match attributes with Some d => d | None => [] end))))
    as [v [Hv [Hsame Hnone]]].
  exists v. tauto.
Qed.

Lemma priority_key_always_present_witness :
  EntityInit.init EntityInit.Found (Some (EntityInit.PyInt 2))
    (Some [("age"%string, EntityInit.PyInt 30)])
  = EntityInit.Built
      ([("age"%string, EntityInit.PyInt 30); ("priority"%string, EntityInit.PyInt 2)],
       Entity.init) /\
  Forall (fun kv => fst kv <> "priority"%string)
    [("vip"%string, EntityInit.PyStr "yes")] /\
  EntityInit.priority_argument
    (EntityInit.set_attributes [("vip"%string, EntityInit.PyStr "yes")]
       [("age"%string, EntityInit.PyInt 30); ("priority"%string, EntityInit.PyInt 2)])
  = Some (EntityInit.PyInt 2).
Proof.
  assert (H1 : EntityInit.init EntityInit.Found (Some (EntityInit.PyInt 2))
                 (Some [("age"%string, EntityInit.PyInt 30)])
               = EntityInit.Built
                   ([("age"%string, EntityInit.PyInt 30);
                     ("priority"%string, EntityInit.PyInt 2)], Entity.init))
    by reflexivity.
  assert (H2 : Forall (fun kv => fst kv <> "priority"%string)
                 [("vip"%string, EntityInit.PyStr "yes")])
    by (repeat constructor; simpl; discriminate).
  split; [exact H1|]. split; [exact H2|].
  destruct (priority_key_always_present _ _ _
              [("vip"%string, EntityInit.PyStr "yes")] _ _ H1)
    as [v [Hv [_ [Hsame _]]]].
  rewrite Hv. f_equal. exact (Hsame H2).
Defined.

Example priority_none_forwarded :
  EntityInit.init EntityInit.Found None
    (Some [("priority"%string, EntityInit.PyNone)])
  = EntityInit.Built ([("priority"%string, EntityInit.PyNone)], Entity.init) /\
  EntityInit.priority_argument [("priority"%string, EntityInit.PyNone)]
  = Some EntityInit.PyNone.
Proof. split; reflexivity. Qed.

(** ** The generator loop of a source *)

Section Loop.
Import SourceLoop.

Lemma next_entity_iter_break (now time : Q) (built : Entity.t) (self s' : Source.t) :
  Source.next_entity_iter now time built self = (s', None) ->
  Source.entities s' = Source.entities self /\
  Source.number s' = Source.number self /\
  Source.count s' = S (Source.count self) /\
  Source.number self = Some (List.length (Source.entities self)).
Proof.
  unfold Source.next_entity_iter, Source.reached_number. simpl.
  destruct (Source.number self) as [n|]; [|discriminate].
  destruct (Nat.eqb_spec (List.length (Source.entities self)) n); [|discriminate].
  intros [= <-]. simpl. subst n. tauto.
Qed.

Lemma next_entity_iter_yield (now time : Q) (built entity : Entity.t)
    (self s' : Source.t) :
  Source.next_entity_iter now time built self = (s', Some entity) ->
  entity = Entity.set_creation_time (now + time) built /\
  Source.entities s' = Source.entities self ++ [entity] /\
  Source.number s' = Source.number self /\
  Source.count s' = S (Source.count self) /\
  Source.number self <> Some (List.length (Source.entities self)).
Proof.
  unfold Source.next_entity_iter, Source.reached_number. simpl.
  destruct (Source.number self) as [n|].
  - destruct (Nat.eqb_spec (List.length (Source.entities self)) n); [discriminate|].
    intros [= <- <-]. simpl. repeat split. congruence.
  - intros [= <- <-]. simpl. repeat split. discriminate.
Qed.

Lemma inv_next_entity_loop (its : list iteration) : forall self : Source.t,
  Forall (fun it => Entity.wf (it_built it)) its ->
  Source.inv self ->
  Source.inv (fst (next_entity its self)).
Proof.
  induction its as [|it its IH]; intros self Hwf Hinv; simpl; [exact Hinv|].
  apply Forall_cons_iff in Hwf. destruct Hwf as [Hit Hwf].
  pose proof (inv_next_entity (it_now it) (it_time it) (it_built it) self Hit Hinv)
    as Hstep.
  destruct (Source.next_entity_iter (it_now it) (it_time it) (it_built it) self)
    as [s' [entity|]]; simpl in *; [now apply IH | exact Hstep].
Qed.

Lemma reachable_inv (s : Source.t) : reachable s -> Source.inv s.
Proof.
  induction 1 as [fc n|its self _ IH Hwf|i c self self' _ IH Hcall].
  - apply inv_init.
  - now apply inv_next_entity_loop.
  - exact (inv_call_entity i c self self' IH Hcall).
Qed.

Lemma filter_none (A : Type) (f : A -> bool) (l : list A) :
  (forall x, In x l -> f x = false) -> filter f l = [].
Proof.
  induction l as [|x l IH]; intro H; simpl; [reflexivity|].
  rewrite (H x) by now left. apply IH. intros y Hy. apply H. now right.
Qed.

End Loop.

Example three_iterations_run :
  map Entity.creation_time
    (snd (SourceLoop.next_entity MoreScenarios.three_iterations
            MoreScenarios.bounded_source))
  = [Some (0 + 1); Some (1 + 2)] /\
  Source.count
    (fst (SourceLoop.next_entity MoreScenarios.three_iterations
            MoreScenarios.bounded_source)) = 3%nat.
Proof. split; reflexivity. Qed.

(** X18: a source never holds more entities than its [number]: driving
    the generator on a source that is within the bound leaves it within the
    bound, however many iterations are asked for. *)
Theorem next_entity_respects_number
    (its : list SourceLoop.iteration) (self : Source.t) (n : nat) :
  Source.number self = Some n ->
  (List.length (Source.entities self) <= n)%nat ->
  (List.length (Source.entities (fst (SourceLoop.next_entity its self))) <= n)%nat /\
  Source.number (fst (SourceLoop.next_entity its self)) = Some n.
Proof.
  revert self. induction its as [|it its IH]; intros self Hn Hlen; simpl;
    [tauto|].
  destruct (Source.next_entity_iter (SourceLoop.it_now it) (SourceLoop.it_time it)
              (SourceLoop.it_built it) self) as [s' [entity|]] eqn:E; simpl.
  - apply next_entity_iter_yield in E. destruct E as [_ [He [Hnum [_ Hne]]]].
    apply IH; [congruence|]. rewrite He, length_app. simpl.
    assert (List.length (Source.entities self) <> n) by congruence. lia.
  - apply next_entity_iter_break in E. destruct E as [He [Hnum _]].
    split; [rewrite He; exact Hlen | congruence].
Qed.

Lemma next_entity_respects_number_witness :
  Source.number MoreScenarios.bounded_source = Some 2%nat /\
  (List.length (Source.entities MoreScenarios.bounded_source) <= 2)%nat /\
  (List.length
     (Source.entities
        (fst (SourceLoop.next_entity MoreScenarios.three_iterations
                MoreScenarios.bounded_source))) <= 2)%nat.
Proof.
  assert (H2 : (List.length (Source.entities MoreScenarios.bounded_source) <= 2)%nat)
    by (simpl; lia).
  split; [reflexivity|]. split; [exact H2|].
  exact (proj1 (next_entity_respects_number MoreScenarios.three_iterations
                  MoreScenarios.bounded_source 2 eq_refl H2)).
Defined.

(** X19: driving the generator appends exactly the yielded entities, in
    order, each being what [build_entity] returned with its creation time
    set to the clock plus the delay of its iteration; and [count] goes up
    by one per iteration run, the one that breaks included. *)
Theorem next_entity_yields (its : list SourceLoop.iteration) (self : Source.t) :
  Source.entities (fst (SourceLoop.next_entity its self))
    = Source.entities self ++ snd (SourceLoop.next_entity its self) /\
  Forall2
    (fun it entity =>
       entity = Entity.set_creation_time
                  (SourceLoop.it_now it + SourceLoop.it_time it)
                  (SourceLoop.it_built it))
    (firstn (List.length (snd (SourceLoop.next_entity its self))) its)
    (snd (SourceLoop.next_entity its self)) /\
  (List.length (snd (SourceLoop.next_entity its self)) <= List.length its)%nat /\
  Source.count (fst (SourceLoop.next_entity its self))
    = (Source.count self + List.length (snd (SourceLoop.next_entity its self))
       + (if List.length (snd (SourceLoop.next_entity its self)) <? List.length its
          then 1 else 0))%nat.
Proof.
  revert self. induction its as [|it its IH]; intro self; simpl.
  - rewrite app_nil_r. repeat split; [constructor | lia | lia].
  - destruct (Source.next_entity_iter (SourceLoop.it_now it) (SourceLoop.it_time it)
                (SourceLoop.it_built it) self) as [s' [entity|]] eqn:E; simpl.
    + apply next_entity_iter_yield in E. destruct E as [Hent [He [_ [Hc _]]]].
      destruct (IH s') as [H1 [H2 [H3 H4]]].
      split; [rewrite H1, He, <- app_assoc; reflexivity|].
      split; [constructor; assumption|].
      split; [lia|].
      rewrite H4, Hc.
      change (S (List.length (snd (SourceLoop.next_entity its s')))
                <? S (List.length its))%nat
        with (List.length (snd (SourceLoop.next_entity its s')) <? List.length its)%nat.
      lia.
    + apply next_entity_iter_break in E. destruct E as [He [_ [Hc _]]].
      rewrite app_nil_r. repeat split; [exact He | constructor | lia | lia].
Qed.

(** X20: on a source none of whose entities is disposed the three
    aggregators return the empty list; they raise nothing, whatever state
    the entities are in. *)
Theorem no_disposed_no_times (s : Source.t) :
  (forall e, In e (Source.entities s) -> Entity.disposal_time e = None) ->
  Source.get_total_times s = Ok [] /\
  Source.get_waiting_times s = Ok [] /\
  Source.get_processing_times s = Ok [].
Proof.
  intro H.
  unfold Source.get_total_times, Source.get_waiting_times,
    Source.get_processing_times, Source._get_disposed_entities.
  rewrite filter_none; [repeat split|].
  intros e He. unfold Entity.is_disposed. now rewrite (H e He).
Qed.

Lemma no_disposed_no_times_witness :
  (forall e, In e (Source.entities Scenario.three_spawned) ->
             Entity.disposal_time e = None) /\
  Source.get_total_times Scenario.three_spawned = Ok [] /\
  Source.get_waiting_times Scenario.three_spawned = Ok [] /\
  Source.get_processing_times Scenario.three_spawned = Ok [].
Proof.
  assert (H : forall e, In e (Source.entities Scenario.three_spawned) ->
                        Entity.disposal_time e = None).
  { intros e He. simpl in He. destruct He as [<-|[<-|[<-|[]]]]; reflexivity. }
  split; [exact H|].
  exact (no_disposed_no_times Scenario.three_spawned H).
Defined.

(** X21: every entity in the list of a source reached from a fresh one, by
    driving the generator and by calls on its entities, carries a creation
    stamp; so the three aggregators never raise on such a source. *)
Theorem reachable_source_stamped (s : Source.t) :
  SourceLoop.reachable s ->
  Forall (fun e => Entity.creation_time e <> None) (Source.entities s) /\
  exists totals waitings processings : list Q,
    Source.get_total_times s = Ok totals /\
    Source.get_waiting_times s = Ok waitings /\
    Source.get_processing_times s = Ok processings.
Proof.
  intro H. apply reachable_inv in H. split.
  - eapply Forall_impl; [|exact H]. now intros e [_ Hc].
  - pose proof (disposed_getters_ok s H) as Hd.
    unfold Source.get_total_times, Source.get_waiting_times,
      Source.get_processing_times.
    destruct (comprehension_ok Entity.get_total_time
                (Source._get_disposed_entities s)) as [totals [Ht _]].
    { eapply Forall_impl; [|exact Hd]. intros e [c [d [Hc [Hdd Hwf]]]].
      destruct (getters_ok e c d Hwf Hc Hdd) as [E _]. eauto. }
    destruct (comprehension_ok Entity.get_total_waiting_time
                (Source._get_disposed_entities s)) as [waitings [Hw _]].
    { eapply Forall_impl; [|exact Hd]. intros e [c [d [Hc [Hdd Hwf]]]].
      destruct (getters_ok e c d Hwf Hc Hdd) as [_ [E _]]. eauto. }
    destruct (comprehension_ok Entity.get_total_processing_time
                (Source._get_disposed_entities s)) as [processings [Hp _]].
    { eapply Forall_impl; [|exact Hd]. intros e [c [d [Hc [Hdd Hwf]]]].
      destruct (getters_ok e c d Hwf Hc Hdd) as [_ [_ E]]. eauto. }
    eauto 10.
Qed.

Lemma reachable_source_stamped_witness :
  SourceLoop.reachable
    (fst (SourceLoop.next_entity MoreScenarios.three_iterations
            MoreScenarios.bounded_source)) /\
  Forall (fun e => Entity.creation_time e <> None)
    (Source.entities
       (fst (SourceLoop.next_entity MoreScenarios.three_iterations
               MoreScenarios.bounded_source))).
Proof.
  assert (H : SourceLoop.reachable
                (fst (SourceLoop.next_entity MoreScenarios.three_iterations
                        MoreScenarios.bounded_source))).
  { apply SourceLoop.reach_next; [apply SourceLoop.reach_init|].
    repeat constructor. }
  split; [exact H|].
  exact (proj1 (reachable_source_stamped _ H)).
Defined.
